(** * dockertest.docdeps: the configuration-documentation parser and renderer

    A shallow embedding of [dockertest/docdeps.py]: the [DocItem] record, the
    line-oriented [ConfigINIParser] with its accumulator state, the section
    classification properties and the [DocBase] composer.

    Conventions of the embedding.
    - The module imports [configparser] and [io.StringIO]: it is the Python 3
      program that is embedded.  A [str] is a [string]; a value that is
      either [None] or a [str] is an [option string].  The classes of
      whitespace and of word characters are those of ASCII text.
    - A call that can raise returns an [outcome]: [Return v], or [Raise e]
      with the exception's class and message.  The two built-in formatting
      operators ([str.format] and [%]) are embedded on the fragment of
      their mini-languages that is listed at their definitions; outside of
      it they answer [Unmodelled], which no theorem below relies on.
    - A [dict] is an insertion-ordered association list ([dict_setitem]
      overwrites in place, or appends a new key at the end).
    - Built-ins whose result is not fixed by the program text (the [hash] of
      a tuple, the [str] of a dict, what the reference [RawConfigParser]
      answers for a source) are parameters of the functions that call them.
    - Calls that the interpreter refuses are embedded as it refuses them:
      [cmp] is not a built-in ([NameError]), [list.sort] takes no positional
      argument ([TypeError]), and an exception has no attribute [message]
      ([AttributeError]). *)

From Stdlib Require Import ZArith Ascii String.
From stdpp Require Import base option list strings gmap.

#[local] Set Warnings "-clear-no-such-hyp".

Local Open Scope Z_scope.
Local Open Scope nat_scope.

(** ** Outcomes of calls that may raise *)

Inductive exn_class : Set :=
  | IOError | KeyError | ValueError | IndexError | TypeError
  | NameError | AttributeError.

(** [type(e).__name__] *)
Definition class_name (cls : exn_class) : string :=
  match cls with
  | IOError => "OSError"
  | KeyError => "KeyError"
  | ValueError => "ValueError"
  | IndexError => "IndexError"
  | TypeError => "TypeError"
  | NameError => "NameError"
  | AttributeError => "AttributeError"
  end.

Record exn : Set := Exn { exn_cls : exn_class; exn_message : string }.

Inductive outcome (A : Type) : Type :=
  | Return (a : A)
  | Raise (e : exn)
  | Unmodelled.

Arguments Return {A} a.
Arguments Raise {A} e.
Arguments Unmodelled {A}.

Global Instance outcome_ret : MRet outcome := fun A a => Return a.

Global Instance outcome_bind : MBind outcome := fun A B k m =>
  match m with
  | Return a => k a
  | Raise e => Raise e
  | Unmodelled => Unmodelled
  end.

Definition returns {A : Type} (m : outcome A) : Prop := exists a, m = Return a.

Global Instance exn_class_eq_dec : EqDecision exn_class.
Proof. solve_decision. Defined.

Global Instance exn_eq_dec : EqDecision exn.
Proof. solve_decision. Defined.

(** ** Byte strings *)

Module PyStr.

Definition nl : ascii := "010"%char.
Definition dquote : ascii := "034"%char.

(** The whitespace of ASCII text: the characters of [string.whitespace]. *)
Definition isspace (c : ascii) : bool :=
  match c with
  | "009" | "010" | "011" | "012" | "013" | " " => true
  | _ => false
  end%char.

Definition isdigit (c : ascii) : bool :=
  let n := nat_of_ascii c in (48 <=? n) && (n <=? 57).

(** The word characters of ASCII text: [[a-zA-Z0-9_]]. *)
Definition isword (c : ascii) : bool :=
  let n := nat_of_ascii c in
  ((97 <=? n) && (n <=? 122)) || ((65 <=? n) && (n <=? 90))
  || ((48 <=? n) && (n <=? 57)) || (n =? 95).

Definition is_empty (s : string) : bool :=
  match s with EmptyString => true | String _ _ => false end.

Fixpoint all (p : ascii -> bool) (s : string) : bool :=
  match s with
  | EmptyString => true
  | String c s' => p c && all p s'
  end.

Fixpoint any (p : ascii -> bool) (s : string) : bool :=
  match s with
  | EmptyString => false
  | String c s' => p c || any p s'
  end.

(** [s.startswith(p)] *)
Fixpoint startswith (p s : string) : bool :=
  match p, s with
  | EmptyString, _ => true
  | String a p', String b s' => bool_decide (a = b) && startswith p' s'
  | String _ _, EmptyString => false
  end.

(** The last character, if any. *)
Fixpoint last_char (s : string) : option ascii :=
  match s with
  | EmptyString => None
  | String c EmptyString => Some c
  | String _ s' => last_char s'
  end.

(** [s.endswith(c)] for a one-character suffix. *)
Definition endswith_char (c : ascii) (s : string) : bool :=
  bool_decide (last_char s = Some c).

(** [s[n:]] *)
Fixpoint drop (n : nat) (s : string) : string :=
  match n, s with
  | O, _ => s
  | S n', String _ s' => drop n' s'
  | S _, EmptyString => EmptyString
  end.

(** [s[:-1]] *)
Fixpoint removelast (s : string) : string :=
  match s with
  | EmptyString => EmptyString
  | String c EmptyString => EmptyString
  | String c s' => String c (removelast s')
  end.

(** [s[1:-1]] *)
Definition slice_1_m1 (s : string) : string := removelast (drop 1 s).

(** [s.lstrip()] *)
Fixpoint lstrip (s : string) : string :=
  match s with
  | EmptyString => EmptyString
  | String c s' => if isspace c then lstrip s' else s
  end.

(** [s.rstrip()] *)
Fixpoint rstrip (s : string) : string :=
  match s with
  | EmptyString => EmptyString
  | String c s' =>
      let r := rstrip s' in
      if isspace c && is_empty r then EmptyString else String c r
  end.

(** [s.strip()] *)
Definition strip (s : string) : string := lstrip (rstrip s).

(** The longest prefix of characters satisfying [p], and the rest. *)
Fixpoint span (p : ascii -> bool) (s : string) : string * string :=
  match s with
  | EmptyString => (EmptyString, EmptyString)
  | String c s' =>
      if p c then let '(a, b) := span p s' in (String c a, b)
      else (EmptyString, s)
  end.

(** The line boundaries of [str.splitlines] among the characters below
    256: LF, VT, FF, CR, FS, GS, RS and NEL. *)
Definition is_linebreak (c : ascii) : bool :=
  match c with
  | "010" | "011" | "012" | "013" | "028" | "029" | "030" | "133" => true
  | _ => false
  end%char.

(** [s.splitlines()]: lines end at a line boundary, CR LF counting as one,
    the terminators are dropped, and a final terminator opens no empty
    line. *)
Fixpoint splitlines_aux (cur : string) (s : string) : list string :=
  match s with
  | EmptyString => if is_empty cur then [] else [cur]
  | String c s' =>
      if bool_decide (c = "013"%char) then
        match s' with
        | String "010"%char s'' => cur :: splitlines_aux EmptyString s''
        | _ => cur :: splitlines_aux EmptyString s'
        end
      else if is_linebreak c then cur :: splitlines_aux EmptyString s'
      else splitlines_aux (cur +:+ String c EmptyString) s'
  end.

Definition splitlines (s : string) : list string := splitlines_aux EmptyString s.

End PyStr.

(** ** Insertion-ordered dictionaries *)

Section PyDict.
Context {K V : Type} `{EqDecision K}.

(** [d[k] = v]: overwrite the value in place, or append a new entry. *)
Fixpoint dict_setitem (k : K) (v : V) (d : list (K * V)) : list (K * V) :=
  match d with
  | [] => [(k, v)]
  | (k', v') :: d' =>
      if decide (k = k') then (k', v) :: d'
      else (k', v') :: dict_setitem k v d'
  end.

(** [d.get(k)] *)
Fixpoint dict_get (k : K) (d : list (K * V)) : option V :=
  match d with
  | [] => None
  | (k', v') :: d' => if decide (k = k') then Some v' else dict_get k d'
  end.

(** [d.update(other)] *)
Definition dict_update (d other : list (K * V)) : list (K * V) :=
  foldl (fun acc kv => dict_setitem (fst kv) (snd kv) acc) d other.

Definition dict_keys (d : list (K * V)) : list K := map fst d.
Definition dict_values (d : list (K * V)) : list V := map snd d.
End PyDict.

(** ** [str.format] called with keyword arguments only

    The embedded fragment: literal text, the escapes [{{] and [}}], and
    replacement fields [{name}] whose name has no conversion ([!]), format
    specification ([:]), attribute ([.]) or index ([[]) part.  A name that is
    empty or a short decimal number is positional and finds the argument
    tuple empty; any other name is looked up among the keywords.  Fields
    outside of this fragment answer [Unmodelled]. *)

Module PyFormat.
Import PyStr.

Inductive mode : Set :=
  | Lit                    (* in literal text *)
  | Opened                 (* just after a single [{] *)
  | Closed                 (* just after a single [}] *)
  | Field (name : string). (* inside a replacement field *)

Definition is_special (c : ascii) : bool :=
  match c with
  | "!" | ":" | "." | "[" => true
  | _ => false
  end%char.

Definition render_field (kwargs : list (string * string)) (name : string)
  : outcome string :=
  if any is_special name then Unmodelled
  else if is_empty name then
    Raise (Exn IndexError "tuple index out of range")
  else if all isdigit name then
    if String.length name <=? 9
    then Raise (Exn IndexError "tuple index out of range")
    else Unmodelled
  else match dict_get name kwargs with
       | Some v => Return v
       | None => Raise (Exn KeyError name)
       end.

Fixpoint format_from (kwargs : list (string * string)) (m : mode) (s : string)
  : outcome string :=
  match s with
  | EmptyString =>
      match m with
      | Lit => Return EmptyString
      | Opened => Raise (Exn ValueError "Single '{' encountered in format string")
      | Closed => Raise (Exn ValueError "Single '}' encountered in format string")
      | Field name =>
          (* the end of the string inside a replacement field *)
          if any (fun c => bool_decide (c = "!"%char) || bool_decide (c = ":"%char)) name
          then Unmodelled
          else Raise (Exn ValueError "expected '}' before end of string")
      end
  | String c s' =>
      match m with
      | Lit =>
          if bool_decide (c = "{"%char) then format_from kwargs Opened s'
          else if bool_decide (c = "}"%char) then format_from kwargs Closed s'
          else r ← format_from kwargs Lit s'; Return (String c r)
      | Opened =>
          if bool_decide (c = "{"%char) then
            r ← format_from kwargs Lit s'; Return (String c r)
          else if bool_decide (c = "}"%char) then
            v ← render_field kwargs EmptyString;
            r ← format_from kwargs Lit s'; Return (v +:+ r)
          else format_from kwargs (Field (String c EmptyString)) s'
      | Closed =>
          if bool_decide (c = "}"%char) then
            r ← format_from kwargs Lit s'; Return (String c r)
          else Raise (Exn ValueError "Single '}' encountered in format string")
      | Field name =>
          if bool_decide (c = "}"%char) then
            v ← render_field kwargs name;
            r ← format_from kwargs Lit s'; Return (v +:+ r)
          else if bool_decide (c = "{"%char) then Unmodelled
          else format_from kwargs (Field (name +:+ String c EmptyString)) s'
      end
  end.

(** [s.format] applied to the keywords [kwargs] *)
Definition format (s : string) (kwargs : list (string * string)) : outcome string :=
  format_from kwargs Lit s.
End PyFormat.

(** ** DocItem *)

(** [DocItemBase = namedtuple('DocItemBase', ('subthing', 'option', 'desc',
    'value'))]; each field holds [None] or a string. *)
Record DocItem : Set := DocItemBase {
  di_subthing : option string;
  di_option : option string;
  di_desc : option string;
  di_value : option string
}.

Global Instance DocItem_eq_dec : EqDecision DocItem.
Proof. solve_decision. Defined.

Module DocItemM.

(** String to use when filling in empty value items *)
Definition empty_value : string := "<None>".

(** Tuple of field-names required by this class *)
Definition fields : list string := ["subthing"; "option"; "desc"; "value"].

(** [DocItem.__new__]: an empty value is replaced by [empty_value]. *)
Definition new (subthing option_ desc value : option string) : DocItem :=
  let newone := DocItemBase subthing option_ desc value in
  if decide (di_value newone = Some EmptyString)
  then DocItemBase subthing option_ desc (Some empty_value)
  else newone.

(** The name [cmp] is not bound: calling it raises [NameError]. *)
Definition cmp {A : Type} (x y : A) : outcome Z :=
  Raise (Exn NameError "name 'cmp' is not defined").

(** [DocItem.__cmp__] *)
Definition __cmp__ (self other : DocItem) : outcome Z :=
  let _self := [di_subthing self; di_option self] in
  let _other := [di_subthing other; di_option other] in
  cmp _self _other.

(** [self == other]: [DocItem] defines no [__eq__], so the comparison is the
    one of tuples, over the four fields. *)
Definition __eq__ (self other : DocItem) : bool :=
  bool_decide ((di_subthing self, di_option self, di_desc self, di_value self)
               = (di_subthing other, di_option other, di_desc other, di_value other)).

Section Hash.
(** The built-in [hash] on tuples of values. *)
Variable hash : list (option string) -> Z.

(** [DocItem.__hash__] *)
Definition __hash__ (self : DocItem) : Z :=
  hash [di_subthing self; di_option self].
End Hash.

End DocItemM.

(** ** ConfigINIParser: the line parser *)

(** The accumulator [state] of the parser.  [reset_state] always stores the
    keys [subthing] (a section name, or [None] before the first header) and
    [desc] (a string); the keys [option] and [value] are deleted by it and
    stored again by an option line, so they are present or absent. *)
Record state : Set := State {
  st_subthing : option string;  (* the value under 'subthing': None or a name *)
  st_option : option string;    (* Some o: the key 'option' is present *)
  st_desc : string;             (* the value under 'desc' *)
  st_value : option string      (* Some v: the key 'value' is present *)
}.

Definition set_desc (d : string) (st : state) : state :=
  State (st_subthing st) (st_option st) d (st_value st).
Definition set_value (v : string) (st : state) : state :=
  State (st_subthing st) (st_option st) (st_desc st) (Some v).
Definition set_option_value (o v : string) (st : state) : state :=
  State (st_subthing st) (Some o) (st_desc st) (Some v).

Module ConfigINIParser.
Import PyStr.

(** String to use for undocumented options *)
Definition undoc_option_doc : string := "Undocumented Option, please fix!".

(** New-style string format replacement mapping for descriptions *)
Definition desc_fmt_map : list (string * string) :=
  [("n", String nl EmptyString); ("t", "    ")].

(** Option-line regular expression, applied with [match], that is,
    anchored at the start of the line: a first group of one or more word
    characters, optional whitespace, exactly one of [=] and [:], optional
    whitespace, and a second group with the rest of the line.  Every piece
    is followed by a piece that accepts none of the characters it repeats,
    so the greedy reading is the only one; the dot of the second group
    stops at a line feed.  The result is [mobj.groups()]. *)
Definition cfgoptval_regex_match (line : string) : option (string * string) :=
  let '(word, rest) := span isword line in
  if is_empty word then None
  else
    let '(_, rest) := span isspace rest in
    match rest with
    | String c rest =>
        if bool_decide (c = "="%char) || bool_decide (c = ":"%char) then
          let '(_, rest) := span isspace rest in
          let '(val, _) := span (fun c => negb (bool_decide (c = nl))) rest in
          Some (word, val)
        else None
    | EmptyString => None
    end.

(** [len(state)] *)
Definition state_len (st : state) : nat :=
  2 + (if st_option st is Some _ then 1 else 0)
    + (if st_value st is Some _ then 1 else 0).

(** [state_complete]: the answer, and the state with its description
    stripped when the answer is [True]. *)
Definition state_complete (st : state) : bool * state :=
  let exptd_len := length DocItemM.fields in
  if state_len st =? exptd_len then
    (* of the four values only the one under 'subthing' can be None *)
    if bool_decide (is_Some (st_subthing st)) then
      (true, set_desc (strip (st_desc st)) st)
    else (false, st)
  else (false, st).

(** [reset_state]: all four keys are overwritten, then 'option' and
    'value' are deleted. *)
Definition reset_state (st : state) (subthing : option string) : state :=
  let d := DocItemM.new subthing None (Some undoc_option_doc) None in
  State (di_subthing d) None (default EmptyString (di_desc d)) None.

(** [DocItem] built from the keywords of [state]: a missing keyword is a
    [TypeError]. *)
Definition DocItem_of_state (st : state) : outcome DocItem :=
  match st_option st, st_value st with
  | Some o, Some v =>
      Return (DocItemM.new (st_subthing st) (Some o) (Some (st_desc st)) (Some v))
  | Some _, None | None, Some _ =>
      Raise (Exn TypeError "__new__() takes exactly 5 arguments (4 given)")
  | None, None =>
      Raise (Exn TypeError "__new__() takes exactly 5 arguments (3 given)")
  end.

(** If the state is complete: its item, and the state reset to the same
    section; else no item and the state as it is. *)
Definition flush_and_reset (st : state) : outcome (option DocItem * state) :=
  let '(complete, st) := state_complete st in
  if complete then
    result ← DocItem_of_state st;
    Return (Some result, reset_state st (st_subthing st))
  else Return (None, st).

(** Parse a single already identified non-section line. *)
Definition parse_non_section (line : string) (st : state)
  : outcome (option DocItem * state) :=
  match cfgoptval_regex_match line with
  | None =>
      (* Line is value continuation or junk *)
      let '(complete, st) := state_complete st in
      if complete && startswith "   " line then
        let line := " " +:+ lstrip line in
        match st_value st with
        | Some v => Return (None, set_value (strip (v +:+ line)) st)
        | None => Raise (Exn KeyError "value")
        end
      else
        (* line is junk *)
        let '(complete, st) := state_complete st in
        if complete then
          result ← DocItem_of_state st; Return (Some result, st)
        else Return (None, st)
  | Some groups =>
      (* line contains at least an unseen option *)
      '(result, st) ← flush_and_reset st;
      (* the pattern has two groups: len(groups) == 1 never holds *)
      Return (result, set_option_value (fst groups) (snd groups) st)
  end.

(** Parse single line of INI file with state: the completed item to
    append, if any, and the updated state. *)
Definition parse_line (line : string) (st : state)
  : outcome (option DocItem * state) :=
  if startswith "[" line && endswith_char "]" line then
    let '(complete, st) := state_complete st in
    result ← (if complete
              then item ← DocItem_of_state st; Return (Some item)
              else Return None);
    Return (result, reset_state st (Some (slice_1_m1 line)))
  else if startswith "#:" line then
    '(result, st) ← flush_and_reset st;
    let st :=
      if decide (st_desc st = undoc_option_doc)
      then set_desc (strip (drop 2 line)) st
      else set_desc (st_desc st +:+ " " +:+ strip (drop 2 line)) st in
    desc ← PyFormat.format (st_desc st) desc_fmt_map;
    Return (result, set_desc desc st)
  else parse_non_section line st.

(** The loop of [_new__docitems] over the lines. *)
Fixpoint parse_lines (lines : list string) (st : state) (docitems : list DocItem)
  : outcome (list DocItem * state) :=
  match lines with
  | [] => Return (docitems, st)
  | line :: lines' =>
      '(result, st) ← parse_line (rstrip line) st;
      match result with
      | None => parse_lines lines' st docitems
      | Some item => parse_lines lines' st (docitems ++ [item])
      end
  end.

(** The state of [_new__docitems] before the first line. *)
Definition initial_state : state :=
  reset_state (State None None EmptyString None) None.

(** All items emitted for the lines, the one concluded by EOF included. *)
Definition emitted (lines : list string) : outcome (list DocItem) :=
  '(docitems, st) ← parse_lines lines initial_state [];
  let '(complete, st) := state_complete st in
  if complete then
    lastone ← DocItem_of_state st; Return (docitems ++ [lastone])
  else Return docitems.

Section Hash.
Variable hash : list (option string) -> Z.

(** [_dedupe] *)
Definition _dedupe (docitems : list DocItem) : list DocItem :=
  let docitems_hashes := map (DocItemM.__hash__ hash) docitems in
  let dedupe_map :=
    foldl (fun dedupe_map ih =>
             match docitems !! (fst ih) with
             | Some item => dict_setitem (snd ih) item dedupe_map
             | None => dedupe_map
             end)
          [] (imap (fun i h => (i, h)) docitems_hashes) in
  dict_values dedupe_map.

(** [_new__docitems] *)
Definition _new__docitems (iterable : list string) : outcome (list DocItem) :=
  docitems ← emitted iterable;
  Return (_dedupe docitems).

(** [from_string]: the tuple of items of the new instance. *)
Definition from_string (ini_string : string) : outcome (list DocItem) :=
  _new__docitems (splitlines ini_string).
End Hash.

End ConfigINIParser.

(** ** ConfigINIParser: the instance and its properties *)

(** Where an instance was parsed from: [__new__] stores the absolute path in
    [ini_filename], [from_string] stores the text in [_ini_string] and leaves
    [ini_filename] at [None]. *)
Inductive ini_source : Set :=
  | IniFile (ini_filename : string)
  | IniString (_ini_string : string).

Record instance : Type := Instance {
  docitems : list DocItem;                (* the tuple itself *)
  source : ini_source;
  _subtest_name : option string;          (* private caches, None at first *)
  _subsub_names : option (gset string);
  _subthing_names : option (list string)
}.

Definition ini_filename (self : instance) : option string :=
  match source self with
  | IniFile f => Some f
  | IniString _ => None
  end.

Definition set_subthing_names (v : list string) (self : instance) : instance :=
  Instance (docitems self) (source self) (_subtest_name self) (_subsub_names self) (Some v).
Definition set_subtest_name (v : string) (self : instance) : instance :=
  Instance (docitems self) (source self) (Some v) (_subsub_names self) (_subthing_names self).
Definition set_subsub_names (v : gset string) (self : instance) : instance :=
  Instance (docitems self) (source self) (_subtest_name self) (Some v) (_subthing_names self).

(** A property access: an outcome, and the instance with its caches. *)
Definition access (A : Type) : Type := instance -> outcome A * instance.

Definition access_ret {A : Type} (a : A) : access A := fun self => (Return a, self).
Definition access_raise {A : Type} (e : exn) : access A := fun self => (Raise e, self).
Definition access_bind {A B : Type} (m : access A) (k : A -> access B) : access B :=
  fun self =>
    match m self with
    | (Return a, self') => k a self'
    | (Raise e, self') => (Raise e, self')
    | (Unmodelled, self') => (Unmodelled, self')
    end.

Notation "x ⇐ m ;; k" := (access_bind m (fun x => k))
  (at level 100, m at next level, right associativity, only parsing).

Module Properties.

Section Reference.
(** What the reference [RawConfigParser] answers for the source: the
    section names in file order, or the exception of reading it. *)
Variable sections : ini_source -> outcome (list string).

(** [section_names.sort(cmpfunc, reverse=True)]: [sort] takes no positional
    argument, so the call raises before it looks at the list or calls the
    comparison function. *)
Definition sort_positional (section_names : list string) : outcome (list string) :=
  Raise (Exn TypeError "sort() takes no positional arguments").

(** [subthing_names]: all section names, reverse sorted by length. *)
Definition subthing_names : access (list string) := fun self =>
  match _subthing_names self with
  | None =>
      match sections (source self) with
      | Return section_names =>
          if length section_names <? 1 then
            match source self with
            | IniFile f =>
                (Raise (Exn IOError ("No sections found in ini file: " +:+ f)), self)
            | IniString s =>
                (Raise (Exn IOError ("No sections found in ini string: '" +:+ s +:+ "'")),
                 self)
            end
          else
            match sort_positional section_names with
            | Return section_names =>
                (Return section_names, set_subthing_names section_names self)
            | Raise e => (Raise e, self)
            | Unmodelled => (Unmodelled, self)
            end
      | Raise e => (Raise e, self)
      | Unmodelled => (Unmodelled, self)
      end
  | Some names => (Return names, self)
  end.

(** [l[0]] and [l[-1]] *)
Definition first_item (l : list string) : access string :=
  match l with
  | x :: _ => access_ret x
  | [] => access_raise (Exn IndexError "tuple index out of range")
  end.
Definition last_item (l : list string) : access string :=
  match last l with
  | Some x => access_ret x
  | None => access_raise (Exn IndexError "tuple index out of range")
  end.

(** The message of the ambiguity error. *)
Definition multiple_msg (src : ini_source) (subtest subsub : string) : string :=
  let msg := "Multiple subtest sections found " in
  let msg :=
    match src with
    | IniFile f => msg +:+ " in ini file: " +:+ f
    | IniString s => msg +:+ " in ini string: '" +:+ s +:+ "'"
    end in
  msg +:+ ": subtest " +:+ String PyStr.dquote subtest +:+ String PyStr.dquote " == sub-subtest "
      +:+ String PyStr.dquote subsub +:+ String PyStr.dquote EmptyString.

(** The loop of [subtest_name] over [subthing_names[0:-1]]. *)
Fixpoint check_unique (subtest_name_len : nat) (names : list string)
  : access unit :=
  match names with
  | [] => access_ret tt
  | subthing_name :: names' =>
      if subtest_name_len =? String.length subthing_name then
        all_names ⇐ subthing_names;;
        shortest ⇐ last_item all_names;;
        fun self =>
          access_raise (Exn IOError (multiple_msg (source self) shortest subthing_name))
                       self
      else check_unique subtest_name_len names'
  end.

(** [subtest_name]: the shortest section name, which must be unique. *)
Definition subtest_name : access string := fun self =>
  match _subtest_name self with
  | None =>
      (names ⇐ subthing_names;;
       if length names =? 1 then
         names ⇐ subthing_names;; first_item names
       else
         names ⇐ subthing_names;;
         shortest ⇐ last_item names;;
         let subtest_name_len := String.length shortest in
         names ⇐ subthing_names;;
         _ ⇐ check_unique subtest_name_len (removelast names);;
         names ⇐ subthing_names;;
         shortest ⇐ last_item names;;
         fun self => (Return shortest, set_subtest_name shortest self)) self
  | Some name => (Return name, self)
  end.

(** The list comprehension of [subsub_names]. *)
Fixpoint other_names (names : list string) : access (list string) :=
  match names with
  | [] => access_ret []
  | subthing_name :: names' =>
      subtest ⇐ subtest_name;;
      rest ⇐ other_names names';;
      access_ret (if decide (subthing_name <> subtest)
                  then subthing_name :: rest else rest)
  end.

(** [subsub_names]: the other section names; the tuple made from the
    cached set lists its elements in no particular order, so the result
    is the set. *)
Definition subsub_names : access (gset string) := fun self =>
  match _subsub_names self with
  | None =>
      (names ⇐ subthing_names;;
       if length names =? 1 then access_ret ∅
       else
         names ⇐ subthing_names;;
         subsub_names ⇐ other_names names;;
         fun self =>
           let cached := list_to_set subsub_names in
           (Return cached, set_subsub_names cached self)) self
  | Some cached => (Return cached, self)
  end.
End Reference.

(** The instance made by [from_string]. *)
Definition from_string (hash : list (option string) -> Z) (ini_string : string)
  : outcome instance :=
  items ← ConfigINIParser.from_string hash ini_string;
  Return (Instance items (IniString ini_string) None None None).

End Properties.

(** ** The [%] operator with a mapping on the right

    The embedded fragment: literal text, the escape [%%], and [%(key)s] with
    a key in balanced parentheses, looked up as soon as its closing
    parenthesis is read.  Conversions without a key, flags, widths and
    conversion types other than [s] answer [Unmodelled]. *)

Module PyPercent.

Inductive mode : Set :=
  | Lit                               (* in literal text *)
  | Percent                           (* just after [%] *)
  | Key (pcount : nat) (key : string) (* inside [%(...], [S pcount] open *)
  | Conv (v : string).                (* after [%(key)], value found *)

Fixpoint percent_from (dct : list (string * string)) (m : mode) (s : string)
  : outcome string :=
  match s with
  | EmptyString =>
      match m with
      | Lit => Return EmptyString
      | Percent => Raise (Exn ValueError "incomplete format")
      | Key _ _ => Raise (Exn ValueError "incomplete format key")
      | Conv _ => Raise (Exn ValueError "incomplete format")
      end
  | String c s' =>
      match m with
      | Lit =>
          if bool_decide (c = "%"%char) then percent_from dct Percent s'
          else r ← percent_from dct Lit s'; Return (String c r)
      | Percent =>
          if bool_decide (c = "%"%char) then
            r ← percent_from dct Lit s'; Return (String c r)
          else if bool_decide (c = "("%char) then
            percent_from dct (Key 0 EmptyString) s'
          else Unmodelled
      | Key pcount key =>
          if bool_decide (c = ")"%char) then
            match pcount with
            | O =>
                match dict_get key dct with
                | Some v => percent_from dct (Conv v) s'
                | None => Raise (Exn KeyError key)
                end
            | S pcount' =>
                percent_from dct (Key pcount' (key +:+ String c EmptyString)) s'
            end
          else if bool_decide (c = "("%char) then
            percent_from dct (Key (S pcount) (key +:+ String c EmptyString)) s'
          else percent_from dct (Key pcount (key +:+ String c EmptyString)) s'
      | Conv v =>
          if bool_decide (c = "s"%char) then
            r ← percent_from dct Lit s'; Return (v +:+ r)
          else Unmodelled
      end
  end.

(** [input_string % dct] *)
Definition percent (input_string : string) (dct : list (string * string))
  : outcome string :=
  percent_from dct Lit input_string.
End PyPercent.

(** ** DocBase: the composer *)

(** The class attributes of a [DocBase] subclass.  The methods of
    [sub_method] and [sub_method_args] are functions to strings; [conv] is
    the overridable final conversion. *)
Record DocBase : Type := {
  fmt : string;
  sub_str : option (list (string * string));
  sub_method : option (list (string * (string -> string)));
  sub_method_args :
    option (list ((list string -> string * string) * option (list string)));
  conv : string -> string
}.

Module DocBaseM.

(** [DocBase.conv]: nothing by default. *)
Definition conv_default (input_string : string) : string := input_string.

(** [xcept.message]: an exception has no such attribute. *)
Definition message (xcept : exn) : outcome string :=
  Raise (Exn AttributeError
           ("'" +:+ class_name (exn_cls xcept) +:+ "' object has no attribute 'message'")).

Section Str.
(** The built-in [str] of a dictionary of strings. *)
Variable dict_str : list (string * string) -> string.

(** [do_sub_str]: the handler reads [xcept.message] first, for the message
    of the exception it means to raise. *)
Definition do_sub_str (input_string : string) (dct : list (string * string))
  : outcome string :=
  match PyPercent.percent input_string dct with
  | Raise xcept =>
      xcept_message ← message xcept;
      Raise (Exn (exn_cls xcept)
                 (xcept_message +:+ ": fmt='" +:+ input_string
                    +:+ "' with dct='" +:+ dict_str dct +:+ "'"))
  | r => r
  end.

(** [get_sub_method_dct] *)
Definition get_sub_method_dct (self : DocBase) : list (string * string) :=
  match sub_method self with
  | None => []
  | Some methods =>
      foldl (fun subs km => dict_setitem (fst km) (snd km (fst km)) subs)
            [] methods
  end.

(** [get_sub_method_args_dct] *)
Definition get_sub_method_args_dct (self : DocBase) : list (string * string) :=
  match sub_method_args self with
  | None => []
  | Some calls =>
      foldl (fun subs ma =>
               let args := default [] (snd ma) in
               let '(key, value) := fst ma args in
               dict_setitem key value subs)
            [] calls
  end.

(** The dictionary that [__str__] builds. *)
Definition merged_dct (self : DocBase) : list (string * string) :=
  let dct := [] in
  let dct := if sub_str self is Some d then dict_update dct d else dct in
  let dct := if sub_method self is Some _
             then dict_update dct (get_sub_method_dct self) else dct in
  let dct := if sub_method_args self is Some _
             then dict_update dct (get_sub_method_args_dct self) else dct in
  dct.

(** [__str__] *)
Definition __str__ (self : DocBase) : outcome string :=
  let dct := merged_dct self in
  output_string ← (if dct is _ :: _
                   then do_sub_str (fmt self) dct
                   else Return (fmt self));
  Return (PyStr.strip (conv self output_string)).
End Str.

End DocBaseM.

(** ** Reference values and invariants used by the statements *)

(** The key that the text of the specification gives to the mapping of
    [_dedupe]: the pair of [subthing] and [option]. *)
Definition pair_key (item : DocItem) : option string * option string :=
  (di_subthing item, di_option item).

(** Deduplication keyed by the pair itself, as the specification words it:
    each later occurrence overwrites the earlier one, and the values are
    taken in insertion order. *)
Definition dedupe_by_pair (docitems : list DocItem) : list DocItem :=
  dict_values
    (foldl (fun dedupe_map item => dict_setitem (pair_key item) item dedupe_map)
           [] docitems).

(** The keys of a list in the order in which they are first seen. *)
Fixpoint first_seen {K : Type} `{EqDecision K} (l : list K) : list K :=
  match l with
  | [] => []
  | k :: l' => k :: filter (fun k' => k' <> k) (first_seen l')
  end.

(** [hash] does not confuse the keys of two of the items. *)
Definition collision_free (hash : list (option string) -> Z) (docitems : list DocItem)
  : Prop :=
  forall a b, a ∈ docitems -> b ∈ docitems ->
    DocItemM.__hash__ hash a = DocItemM.__hash__ hash b -> pair_key a = pair_key b.

(** A string without a brace. *)
Definition brace_free (s : string) : bool :=
  negb (PyStr.any (fun c => bool_decide (c = "{"%char) || bool_decide (c = "}"%char)) s).

(** A string without leading or trailing whitespace. *)
Definition outer_space_free (s : string) : Prop :=
  (forall c s', s = String c s' -> PyStr.isspace c = false) /\
  (forall c, PyStr.last_char s = Some c -> PyStr.isspace c = false).

(** What every item of a parse result looks like. *)
Definition well_formed_item (item : DocItem) : Prop :=
  is_Some (di_subthing item) /\ is_Some (di_option item) /\
  (exists desc, di_desc item = Some desc /\ outer_space_free desc) /\
  (exists value, di_value item = Some value /\ value <> EmptyString).

(** The accumulator holds a section, an option and a value. *)
Definition complete (st : state) : Prop :=
  is_Some (st_subthing st) /\ is_Some (st_option st) /\ is_Some (st_value st).

(** The mention of a source in a message. *)
Definition names_source (src : ini_source) (message : string) : Prop :=
  exists before after,
    message = before +:+ (match src with IniFile f => f | IniString s => s end) +:+ after.

(** One round of the loop of [_dedupe]. *)
Definition dedupe_step (hash : list (option string) -> Z)
    (m : list (Z * DocItem)) (item : DocItem) : list (Z * DocItem) :=
  dict_setitem (DocItemM.__hash__ hash item) item m.

(** The dictionary obtained by filing items under any key. *)
Definition fold_by {K : Type} `{EqDecision K} (key : DocItem -> K)
    (m : list (K * DocItem)) (ds : list DocItem) : list (K * DocItem) :=
  foldl (fun acc item => dict_setitem (key item) item acc) m ds.

(** The hash of a pair, and a dictionary of pairs filed under their hashes. *)
Definition hash_pair (hash : list (option string) -> Z)
    (p : option string * option string) : Z := hash [p.1; p.2].
Definition rekey (hash : list (option string) -> Z)
    (m : list ((option string * option string) * DocItem)) : list (Z * DocItem) :=
  map (fun kv => (hash_pair hash kv.1, kv.2)) m.

(** Three emitted items, the first and the last for the same option. *)
Definition overriding_items : list DocItem :=
  [DocItemBase (Some "s") (Some "a") (Some "old") (Some "1");
   DocItemBase (Some "s") (Some "b") (Some "doc") (Some "2");
   DocItemBase (Some "s") (Some "a") (Some "new") (Some "3")].

(** The dictionary made from a list of pairs, later pairs winning. *)
Definition as_dict (pairs : list (string * string)) : list (string * string) :=
  dict_update [] pairs.

(** Lookup in the later dictionary first. *)
Definition or_else (later earlier : option string) : option string :=
  match later with
  | Some v => Some v
  | None => earlier
  end.

(** A string without a percent sign, and one without a parenthesis. *)
Definition percent_free (s : string) : bool :=
  negb (PyStr.any (fun c => bool_decide (c = "%"%char)) s).
Definition paren_free (s : string) : bool :=
  negb (PyStr.any (fun c => bool_decide (c = "("%char) || bool_decide (c = ")"%char)) s).

(** ** Example data *)

(** A composer whose template names a key that no source supplies, one
    whose sources collide on a key, and the [str] of the dictionary of the
    first. *)
Definition missing_key_doc : DocBase :=
  {| fmt := "%(a)s %(b)s";
     sub_str := Some [("a", "x")];
     sub_method := None;
     sub_method_args := None;
     conv := DocBaseM.conv_default |}.
Definition colliding_doc : DocBase :=
  {| fmt := "  %(a)s-%(b)s 100%% ";
     sub_str := Some [("a", "x"); ("b", "y")];
     sub_method := Some [("b", fun key => key +:+ "!")];
     sub_method_args := None;
     conv := DocBaseM.conv_default |}.
Definition example_dict_str (dct : list (string * string)) : string := "{'a': 'x'}".

(** A new instance made from a string, its caches still empty, and two
    answers of the reference parser. *)
Definition fresh_instance : instance :=
  Instance [] (IniString "text of the file") None None None.
Definition tied_sections (src : ini_source) : outcome (list string) :=
  Return ["ab"; "abc"; "cd"].
Definition nested_sections (src : ini_source) : outcome (list string) :=
  Return ["a"; "ab"; "abc"].


Definition LF : string := String PyStr.nl EmptyString.

(** The six lines of the end-to-end scenario. *)
Definition scenario_lines : list string :=
  ["[mytest]"; "#: Explains foo"; "foo = 1"; "#: Explains bar"; "#: more bar"; "bar="].

Definition scenario_text : string :=
  "[mytest]" +:+ LF +:+ "#: Explains foo" +:+ LF +:+ "foo = 1" +:+ LF +:+
  "#: Explains bar" +:+ LF +:+ "#: more bar" +:+ LF +:+ "bar=".

Definition scenario_foo : DocItem :=
  DocItemBase (Some "mytest") (Some "foo") (Some "Explains foo") (Some "1").
Definition scenario_bar : DocItem :=
  DocItemBase (Some "mytest") (Some "bar") (Some "Explains bar more bar") (Some "<None>").

(** A hash for the examples. *)
Fixpoint code_of_string (s : string) : Z :=
  match s with
  | EmptyString => 1%Z
  | String c s' => (Z.of_nat (nat_of_ascii c) + 256 * code_of_string s')%Z
  end.
Definition example_hash (t : list (option string)) : Z :=
  foldr (fun v acc =>
           match v with
           | None => (2 * acc)%Z
           | Some s => (2 * (code_of_string s + 1000000007 * acc) + 1)%Z
           end) 0%Z t.


(** ** Further notions used by the statements *)

(** A section header line, as [parse_line] tests it. *)
Definition is_header (line : string) : bool :=
  PyStr.startswith "[" line && PyStr.endswith_char "]" line.

(** What the accumulator would emit if it were flushed now: one item when
    it is complete, none otherwise. *)
Definition pending (st : state) : nat :=
  if (ConfigINIParser.state_complete st).1 then 1 else 0.

(** ** [log_versions._rpmq] *)

(** [sub in s] on strings. *)
Fixpoint contains (sub s : string) : bool :=
  PyStr.startswith sub s ||
  match s with
  | EmptyString => false
  | String _ s' => contains sub s'
  end.

Module LogVersions.
Section Run.
(** The standard output of [utils.run(command, ignore_status=True)]. *)
Variable run_stdout : string -> string.

(** [_rpmq] *)
Definition _rpmq (package_name : string) : string :=
  let nvr := run_stdout ("rpm -q " +:+ package_name) in
  if contains "is not installed" nvr then EmptyString else nvr.
End Run.
End LogVersions.

(** A method of a composer. *)
Definition exclaim (key : string) : string := key +:+ "!".


(** What one entry of [sub_method_args] returns: its method applied to its
    arguments, none when they are [None]. *)
Definition call_result (ma : (list string -> string * string) * option (list string))
  : string * string :=
  fst ma (default [] (snd ma)).

(** A method of two arguments for [sub_method_args]. *)
Definition pair_of_args (args : list string) : string * string :=
  match args with
  | [k; v] => (k, v)
  | _ => (EmptyString, EmptyString)
  end.

(** A string without a line boundary. *)
Definition linebreak_free (s : string) : bool :=
  negb (PyStr.any PyStr.is_linebreak s).


(** Text of printable ASCII characters and tabs, on which the classes of
    [str] and of the patterns of [re] are the ASCII ones. *)
Definition plain_ascii (s : string) : bool :=
  PyStr.all (fun c => let n := nat_of_ascii c in
                      (n =? 9) || ((32 <=? n) && (n <=? 126))) s.

(** The text of lines that each end in [terminator]. *)
Definition terminated (terminator : string) (lines : list string) : string :=
  foldr (fun line text => line +:+ terminator +:+ text) EmptyString lines.

Definition CR : string := String "013" EmptyString.
Definition CRLF : string := String "013" (String "010" EmptyString).


(** * Theorems *)

(** ** The dictionary *)

Section PyDictFacts.
Context {K V : Type} `{EqDecision K}.
Implicit Types (d : list (K * V)) (k : K) (v : V).

Lemma dict_get_setitem k k' v d :
  dict_get k (dict_setitem k' v d) = if decide (k = k') then Some v else dict_get k d.
Proof.
  induction d as [|[k0 v0] d IH]; simpl.
  - repeat case_decide; congruence.
  - destruct (decide (k' = k0)) as [->|Hne]; simpl;
      repeat case_decide; subst; try congruence.
Qed.

Lemma dict_keys_setitem k v d :
  dict_keys (dict_setitem k v d) =
  if decide (k ∈ dict_keys d) then dict_keys d else dict_keys d ++ [k].
Proof.
  unfold dict_keys. induction d as [|[k0 v0] d IH]; simpl.
  - destruct (decide (k ∈ [])) as [Hin|Hin]; [inversion Hin | done].
  - destruct (decide (k = k0)) as [->|Hne]; simpl.
    + destruct (decide (k0 ∈ k0 :: map fst d)) as [|Hn]; [done|].
      exfalso. apply Hn. constructor.
    + rewrite IH.
      destruct (decide (k ∈ map fst d)) as [Hin|Hin];
        destruct (decide (k ∈ k0 :: map fst d)) as [Hin'|Hin']; try done.
      * exfalso. apply Hin'. by constructor.
      * exfalso. inversion Hin'; subst; done.
Qed.
End PyDictFacts.

(** ** [_dedupe] as a fold over the items *)

Section DedupeFold.
Variable hash : list (option string) -> Z.

Lemma dedupe_loop_from (pre suf : list DocItem) (m : list (Z * DocItem)) :
  foldl (fun dedupe_map ih =>
           match (pre ++ suf) !! (fst ih) with
           | Some item => dict_setitem (snd ih) item dedupe_map
           | None => dedupe_map
           end)
        m (imap (fun i h => (length pre + i, h)) (map (DocItemM.__hash__ hash) suf))
  = foldl (dedupe_step hash) m suf.
Proof.
  revert pre m. induction suf as [|x suf IH]; intros pre m; [done|].
  simpl. rewrite Nat.add_0_r, list_lookup_middle by done. simpl.
  specialize (IH (pre ++ [x]) (dedupe_step hash m x)).
  rewrite <- (assoc_L (++)) in IH. simpl in IH.
  rewrite <- IH. f_equal.
  apply imap_ext. intros i h _. simpl. rewrite length_app. simpl. f_equal. lia.
Qed.

Lemma dedupe_unfold (docitems : list DocItem) :
  ConfigINIParser._dedupe hash docitems = dict_values (foldl (dedupe_step hash) [] docitems).
Proof.
  unfold ConfigINIParser._dedupe. f_equal.
  exact (dedupe_loop_from [] docitems []).
Qed.
End DedupeFold.

(** ** C1: the end-to-end scenario *)

Lemma scenario_emitted :
  ConfigINIParser.emitted scenario_lines = Return [scenario_foo; scenario_bar].
Proof. vm_compute. reflexivity. Qed.

Lemma scenario_splitlines : PyStr.splitlines scenario_text = scenario_lines.
Proof. vm_compute. reflexivity. Qed.

(** C1.  The six lines of the scenario parse to exactly the two items
    [scenario_foo] and [scenario_bar], in this order: the empty value of
    [bar=] becomes the sentinel and the two doc-comment lines are joined by a
    space.  The two keys are told apart by the hash under which [_dedupe]
    files them. *)
Theorem end_to_end_scenario (hash : list (option string) -> Z) :
  hash [Some "mytest"; Some "foo"] <> hash [Some "mytest"; Some "bar"] ->
  ConfigINIParser.emitted scenario_lines = Return [scenario_foo; scenario_bar] /\
  ConfigINIParser._new__docitems hash scenario_lines
    = Return [scenario_foo; scenario_bar] /\
  ConfigINIParser.from_string hash scenario_text
    = Return [scenario_foo; scenario_bar].
Proof.
  intros Hne.
  assert (ConfigINIParser._new__docitems hash scenario_lines
          = Return [scenario_foo; scenario_bar]) as Hnew.
  { unfold ConfigINIParser._new__docitems. rewrite scenario_emitted. simpl.
    unfold mret, outcome_ret. f_equal. rewrite dedupe_unfold. simpl.
    unfold dedupe_step, DocItemM.__hash__. simpl.
    rewrite decide_False by congruence. reflexivity. }
  split; [exact scenario_emitted|]. split; [exact Hnew|].
  unfold ConfigINIParser.from_string. rewrite scenario_splitlines. exact Hnew.
Qed.

Lemma end_to_end_scenario_witness :
  ConfigINIParser.from_string example_hash scenario_text
    = Return [scenario_foo; scenario_bar].
Proof.
  apply (end_to_end_scenario example_hash). vm_compute. discriminate.
Defined.

Lemma filter_all {A : Type} (P : A -> Prop) `{forall x, Decision (P x)} (l : list A) :
  (forall x, P x) -> filter P l = l.
Proof.
  intros HP. induction l as [|x l IH]; [done|].
  rewrite filter_cons_True by done. by rewrite IH.
Qed.

Lemma filter_none {A : Type} (P : A -> Prop) `{forall x, Decision (P x)} (l : list A) :
  (forall x, x ∈ l -> ~ P x) -> filter P l = [].
Proof.
  induction l as [|x l IH]; intros HP; [done|].
  rewrite filter_cons_False by (apply HP; by left).
  apply IH. intros y Hy. apply HP. by right.
Qed.

(** ** Keys in the order of their first occurrence *)

Section FirstSeen.
Context {K : Type} `{EqDecision K}.
Implicit Types (l : list K) (k : K).

Lemma elem_of_first_seen k l : k ∈ first_seen l <-> k ∈ l.
Proof.
  induction l as [|x l IH]; simpl; [done|].
  rewrite !elem_of_cons, list_elem_of_filter, IH.
  destruct (decide (k = x)); naive_solver.
Qed.

Lemma NoDup_first_seen l : NoDup (first_seen l).
Proof.
  induction l as [|x l IH]; simpl; constructor.
  - rewrite list_elem_of_filter. naive_solver.
  - by apply NoDup_filter.
Qed.
End FirstSeen.

(** ** Folding items into a dictionary under any key *)

Section FoldByKey.
Context {K : Type} `{EqDecision K} (key : DocItem -> K).
Implicit Types (m : list (K * DocItem)) (ds : list DocItem).

Lemma NoDup_keys_setitem k (v : DocItem) m :
  NoDup (dict_keys m) -> NoDup (dict_keys (dict_setitem k v m)).
Proof.
  intros Hnd. rewrite dict_keys_setitem. case_decide; [done|].
  apply NoDup_app. split_and!; [done| |apply NoDup_singleton].
  intros x Hx ->%list_elem_of_singleton. done.
Qed.

Lemma elem_of_setitem k0 (v : DocItem) m k d :
  NoDup (dict_keys m) ->
  (k, d) ∈ dict_setitem k0 v m ->
  (k = k0 /\ d = v) \/ ((k, d) ∈ m /\ k <> k0).
Proof.
  unfold dict_keys. induction m as [|[k' v'] m IH]; simpl; intros Hnd Hin.
  - apply list_elem_of_singleton in Hin. left. by inversion Hin.
  - apply NoDup_cons in Hnd as [Hk' Hnd].
    destruct (decide (k0 = k')) as [->|Hne].
    + apply elem_of_cons in Hin as [Heq|Hin].
      * left. by inversion Heq.
      * right. split; [by right|]. intros ->. apply Hk'.
        apply list_elem_of_fmap. by exists (k', d).
    + apply elem_of_cons in Hin as [Heq|Hin].
      * right. inversion Heq; subst. split; [by left | congruence].
      * destruct (IH Hnd Hin) as [?|[? ?]]; [by left|].
        right. split; [by right | done].
Qed.

Lemma fold_by_keys m ds :
  dict_keys (fold_by key m ds) =
  dict_keys m ++ filter (fun k => k ∉ dict_keys m) (first_seen (map key ds)).
Proof.
  revert m. induction ds as [|x ds IH]; intros m; simpl.
  - by rewrite app_nil_r.
  - rewrite IH, dict_keys_setitem. case_decide as Hin.
    + f_equal. rewrite filter_cons_False by naive_solver.
      rewrite list_filter_filter. apply list_filter_iff.
      intros k. split; [|naive_solver]. intros Hk. split; [done|].
      intros ->. done.
    + rewrite <- (assoc_L (++)). f_equal. simpl.
      rewrite filter_cons_True by done. f_equal.
      rewrite list_filter_filter. apply list_filter_iff.
      intros k. rewrite elem_of_app, list_elem_of_singleton. naive_solver.
Qed.

Lemma fold_by_NoDup m ds :
  NoDup (dict_keys m) -> NoDup (dict_keys (fold_by key m ds)).
Proof.
  revert m. induction ds as [|x ds IH]; intros m Hnd; simpl; [done|].
  apply IH. by apply NoDup_keys_setitem.
Qed.

(** An entry of the final dictionary was there from the start and never
    overwritten, or it is the last item with its key. *)
Lemma fold_by_entries m ds k d :
  NoDup (dict_keys m) ->
  (k, d) ∈ fold_by key m ds ->
  ((k, d) ∈ m /\ Forall (fun d' => key d' <> k) ds) \/
  (k = key d /\ exists pre suf,
      ds = pre ++ d :: suf /\ Forall (fun d' => key d' <> key d) suf).
Proof.
  revert m. induction ds as [|x ds IH]; intros m Hnd Hin; simpl in *.
  - left. by split.
  - destruct (IH _ (NoDup_keys_setitem _ _ _ Hnd) Hin)
      as [[Hm Hall]|[-> (pre & suf & -> & Hsuf)]].
    + apply (elem_of_setitem _ _ _ _ _ Hnd) in Hm as [[-> ->]|[Hm Hne]].
      * right. split; [done|]. by exists [], ds.
      * left. split; [done|]. constructor; [congruence | done].
    + right. split; [done|]. by exists (x :: pre), suf.
Qed.

Lemma fold_by_entry_key ds k d : (k, d) ∈ fold_by key [] ds -> k = key d.
Proof.
  intros Hin. apply fold_by_entries in Hin as [[Hm _]|[-> _]];
    [inversion Hm | done | apply NoDup_nil_2].
Qed.

Lemma fold_by_values_keys ds :
  map key (dict_values (fold_by key [] ds)) = first_seen (map key ds).
Proof.
  pose proof (fold_by_keys [] ds) as Hk. simpl in Hk.
  rewrite filter_all in Hk by (intros; apply not_elem_of_nil).
  rewrite <- Hk. unfold dict_values, dict_keys.
  rewrite map_map. apply map_ext_in. intros [k d] Hin. simpl.
  symmetry. apply (fold_by_entry_key ds). by apply list_elem_of_In.
Qed.

Lemma fold_by_values_last ds d :
  d ∈ dict_values (fold_by key [] ds) ->
  exists pre suf, ds = pre ++ d :: suf /\ Forall (fun d' => key d' <> key d) suf.
Proof.
  unfold dict_values. intros ([k d'] & -> & Hin)%list_elem_of_fmap. simpl.
  apply fold_by_entries in Hin as [[Hm _]|[_ ?]];
    [inversion Hm | done | apply NoDup_nil_2].
Qed.
End FoldByKey.

(** ** C2: deduplication *)

Section DedupeByHash.
Variable hash : list (option string) -> Z.

Lemma setitem_rekey k v m :
  (forall k', k' ∈ dict_keys m -> hash_pair hash k = hash_pair hash k' -> k = k') ->
  dict_setitem (hash_pair hash k) v (rekey hash m) = rekey hash (dict_setitem k v m).
Proof.
  induction m as [|[k0 v0] m IH]; intros Hinj; simpl; [done|].
  destruct (decide (k = k0)) as [->|Hne].
  - by rewrite decide_True.
  - rewrite decide_False.
    + simpl. f_equal. apply IH. intros k' Hk'. apply Hinj. by right.
    + intros Heq. apply Hne, Hinj; [by left | done].
Qed.

Lemma fold_rekey ds m :
  (forall k1 k2, k1 ∈ dict_keys m ++ map pair_key ds ->
                 k2 ∈ dict_keys m ++ map pair_key ds ->
                 hash_pair hash k1 = hash_pair hash k2 -> k1 = k2) ->
  foldl (dedupe_step hash) (rekey hash m) ds = rekey hash (fold_by pair_key m ds).
Proof.
  revert m. induction ds as [|x ds IH]; intros m Hinj; simpl; [done|].
  unfold dedupe_step at 2.
  change (DocItemM.__hash__ hash x) with (hash_pair hash (pair_key x)).
  rewrite setitem_rekey.
  - apply IH. intros k1 k2 Hk1 Hk2. apply Hinj.
    + rewrite dict_keys_setitem in Hk1. case_decide; set_solver.
    + rewrite dict_keys_setitem in Hk2. case_decide; set_solver.
  - intros k' Hk'. apply Hinj; set_solver.
Qed.

Lemma dedupe_by_hash_is_by_pair ds :
  collision_free hash ds -> ConfigINIParser._dedupe hash ds = dedupe_by_pair ds.
Proof.
  intros Hfree. rewrite dedupe_unfold. unfold dedupe_by_pair.
  change (@nil (Z * DocItem)) with (rekey hash []).
  rewrite fold_rekey.
  - unfold rekey, hash_pair, dict_values. rewrite map_map. done.
  - simpl. intros k1 k2 (a & -> & Ha)%list_elem_of_fmap (b & -> & Hb)%list_elem_of_fmap.
    by apply Hfree.
Qed.
End DedupeByHash.

(** C2.  When [hash] tells the keys of the emitted items apart, the tuple
    that the parser keeps is the deduplication by the pair of [subthing] and
    [option]: its pairs are those of the emitted items, each once, in the
    order of their first occurrence; the item kept for a pair is the last
    one emitted with it; and every emitted pair is retained. *)
Theorem dedupe_last_wins (hash : list (option string) -> Z) (docitems : list DocItem) :
  collision_free hash docitems ->
  let result := ConfigINIParser._dedupe hash docitems in
  (forall lines, ConfigINIParser.emitted lines = Return docitems ->
                 ConfigINIParser._new__docitems hash lines = Return result) /\
  result = dedupe_by_pair docitems /\
  map pair_key result = first_seen (map pair_key docitems) /\
  NoDup (map pair_key result) /\
  (forall item, item ∈ result ->
     exists before after,
       docitems = before ++ item :: after /\
       Forall (fun later => pair_key later <> pair_key item) after) /\
  (forall item, item ∈ docitems ->
     exists kept, kept ∈ result /\ pair_key kept = pair_key item).
Proof.
  intros Hfree result.
  assert (result = dedupe_by_pair docitems) as Hres
    by (by apply dedupe_by_hash_is_by_pair).
  assert (map pair_key result = first_seen (map pair_key docitems)) as Hkeys.
  { rewrite Hres. apply fold_by_values_keys. }
  split_and!.
  - intros lines Hem. unfold ConfigINIParser._new__docitems. by rewrite Hem.
  - done.
  - done.
  - rewrite Hkeys. apply NoDup_first_seen.
  - intros item Hin. rewrite Hres in Hin. by apply fold_by_values_last in Hin.
  - intros item Hin.
    assert (pair_key item ∈ map pair_key result) as Hk.
    { rewrite Hkeys. apply elem_of_first_seen, list_elem_of_fmap. by exists item. }
    apply list_elem_of_fmap in Hk as (kept & Heq & Hkept). by exists kept.
Qed.

(** ** Facts on strings *)

Module PyStrFacts.
Import PyStr.

Lemma app_cons c s t : String c s +:+ t = String c (s +:+ t).
Proof. reflexivity. Qed.

Lemma app_empty_l t : EmptyString +:+ t = t.
Proof. reflexivity. Qed.

Lemma app_empty_r s : s +:+ EmptyString = s.
Proof. induction s as [|c s IH]; [done|]. by rewrite app_cons, IH. Qed.

Lemma app_assoc s t u : (s +:+ t) +:+ u = s +:+ t +:+ u.
Proof. induction s as [|c s IH]; [done|]. by rewrite !app_cons, IH. Qed.

Lemma isspace_not_word c : isspace c = true -> isword c = false.
Proof.
  destruct c as [[] [] [] [] [] [] [] []]; simpl; try discriminate; reflexivity.
Qed.

Lemma lstrip_head s c s' : lstrip s = String c s' -> isspace c = false.
Proof.
  induction s as [|a s IH]; simpl; [discriminate|].
  destruct (isspace a) eqn:Ha; [done|]. intros [= <- _]. done.
Qed.

Lemma last_char_lstrip s c : last_char (lstrip s) = Some c -> last_char s = Some c.
Proof.
  induction s as [|a s IH]; simpl; [done|].
  destruct (isspace a) eqn:Ha; [|done].
  intros Hl. specialize (IH Hl). destruct s; [done | exact IH].
Qed.

Lemma rstrip_last s c : last_char (rstrip s) = Some c -> isspace c = false.
Proof.
  induction s as [|a s IH]; simpl; [discriminate|].
  destruct (isspace a) eqn:Ha; simpl.
  - destruct (rstrip s) as [|b r] eqn:Hr; simpl; [discriminate|]. exact IH.
  - destruct (rstrip s) as [|b r] eqn:Hr; simpl; [|exact IH].
    intros [= <-]. done.
Qed.

Lemma strip_outer_space_free s : outer_space_free (strip s).
Proof.
  split.
  - intros c s'. apply lstrip_head.
  - intros c Hc. apply last_char_lstrip in Hc. by apply rstrip_last in Hc.
Qed.

(** [rstrip] cuts a string at its end. *)
Lemma rstrip_prefix s : exists t, s = rstrip s +:+ t.
Proof.
  induction s as [|a s [t IH]]; simpl; [by exists EmptyString|].
  destruct (isspace a && is_empty (rstrip s)).
  - by exists (String a s).
  - exists t. by rewrite app_cons, <- IH.
Qed.

Lemma startswith_app p s t : startswith p s = true -> startswith p (s +:+ t) = true.
Proof.
  revert s. induction p as [|a p IH]; intros [|b s]; try done.
  rewrite app_cons. simpl. intros [-> ?]%andb_true_iff. simpl. by apply IH.
Qed.

Lemma startswith_rstrip p s : startswith p (rstrip s) = true -> startswith p s = true.
Proof.
  intros H. destruct (rstrip_prefix s) as [t Ht]. rewrite Ht.
  by apply startswith_app.
Qed.

Section Any.
Variable p : ascii -> bool.

Lemma any_app s t : any p (s +:+ t) = any p s || any p t.
Proof.
  induction s as [|c s IH]; [done|]. rewrite app_cons. simpl.
  by rewrite IH, orb_assoc.
Qed.

Lemma any_lstrip s : any p s = false -> any p (lstrip s) = false.
Proof.
  induction s as [|c s IH]; simpl; [done|].
  intros [? ?]%orb_false_iff. destruct (isspace c); [by apply IH|].
  simpl. by apply orb_false_iff.
Qed.

Lemma any_rstrip s : any p s = false -> any p (rstrip s) = false.
Proof.
  induction s as [|c s IH]; simpl; [done|].
  intros [? ?]%orb_false_iff.
  destruct (isspace c && is_empty (rstrip s)); [done|].
  simpl. apply orb_false_iff. split; [done | by apply IH].
Qed.

Lemma any_strip s : any p s = false -> any p (strip s) = false.
Proof. intros. by apply any_lstrip, any_rstrip. Qed.

Lemma any_drop n s : any p s = false -> any p (drop n s) = false.
Proof.
  revert s. induction n as [|n IH]; intros [|c s]; simpl; try done.
  intros [? ?]%orb_false_iff. by apply IH.
Qed.
End Any.

Lemma brace_free_spec s :
  brace_free s = true <->
  any (fun c => bool_decide (c = "{"%char) || bool_decide (c = "}"%char)) s = false.
Proof. unfold brace_free. by rewrite negb_true_iff. Qed.

Lemma brace_free_app s t :
  brace_free s = true -> brace_free t = true -> brace_free (s +:+ t) = true.
Proof.
  rewrite !brace_free_spec, any_app. intros -> ->. done.
Qed.

Lemma brace_free_strip s : brace_free s = true -> brace_free (strip s) = true.
Proof. rewrite !brace_free_spec. apply any_strip. Qed.

Lemma brace_free_rstrip s : brace_free s = true -> brace_free (rstrip s) = true.
Proof. rewrite !brace_free_spec. apply any_rstrip. Qed.

Lemma brace_free_drop n s : brace_free s = true -> brace_free (drop n s) = true.
Proof. rewrite !brace_free_spec. apply any_drop. Qed.

(** A string without braces is its own formatting. *)
Lemma format_brace_free s kwargs :
  brace_free s = true -> PyFormat.format s kwargs = Return s.
Proof.
  rewrite brace_free_spec. unfold PyFormat.format.
  induction s as [|c s IH]; simpl; [done|].
  intros [[Ho Hc]%orb_false_iff Hs]%orb_false_iff.
  rewrite Ho, Hc, (IH Hs). done.
Qed.



End PyStrFacts.

(** ** The accumulator and one line *)

Module ParserFacts.
Import PyStr PyStrFacts ConfigINIParser.

Lemma state_complete_true st st' :
  state_complete st = (true, st') ->
  exists sub o v,
    st = State (Some sub) (Some o) (st_desc st) (Some v) /\
    st' = State (Some sub) (Some o) (strip (st_desc st)) (Some v).
Proof.
  destruct st as [[sub|] [o|] desc [v|]]; cbn; intros [= <-]; eauto.
Qed.

Lemma state_complete_false st st' : state_complete st = (false, st') -> st' = st.
Proof.
  destruct st as [[sub|] [o|] desc [v|]]; cbn; by intros [= <-].
Qed.

(** The guarantee asserted at the end of [reset_state]. *)
Lemma reset_state_incomplete st subthing :
  (state_complete (reset_state st subthing)).1 = false.
Proof. reflexivity. Qed.

Lemma new_well_formed sub o desc v :
  well_formed_item (DocItemM.new (Some sub) (Some o) (Some (strip desc)) (Some v)).
Proof.
  unfold well_formed_item, DocItemM.new. simpl.
  case_decide as Hv; simpl; (split; [eauto|]); (split; [eauto|]); split.
  - eexists. split; [done|]. apply strip_outer_space_free.
  - eexists. split; [done|]. done.
  - eexists. split; [done|]. apply strip_outer_space_free.
  - eexists. split; [done|]. congruence.
Qed.

(** A complete state always yields its item, and a well-formed one. *)
Lemma complete_item st st' :
  state_complete st = (true, st') ->
  exists item, DocItem_of_state st' = Return item /\ well_formed_item item.
Proof.
  intros (sub & o & v & _ & ->)%state_complete_true. eexists. split; [done|].
  apply new_well_formed.
Qed.

Lemma flush_and_reset_returns st :
  exists result st',
    flush_and_reset st = Return (result, st') /\
    (forall item, result = Some item -> well_formed_item item) /\
    (brace_free (st_desc st) = true -> brace_free (st_desc st') = true).
Proof.
  unfold flush_and_reset. destruct (state_complete st) as [[] st1] eqn:Hc.
  - destruct (complete_item _ _ Hc) as (item & -> & Hwf). simpl.
    eexists _, _. split; [done|]. split; [by intros ? [= <-] | done].
  - apply state_complete_false in Hc as ->.
    eexists _, _. split; [done|]. split; [done | done].
Qed.

Lemma state_complete_brace_free st c st' :
  state_complete st = (c, st') ->
  brace_free (st_desc st) = true -> brace_free (st_desc st') = true.
Proof.
  destruct c.
  - intros (sub & o & v & _ & ->)%state_complete_true. simpl. apply brace_free_strip.
  - by intros ->%state_complete_false.
Qed.

(** Lines other than doc-comments: never an exception, in any state. *)
Lemma parse_non_section_returns line st :
  exists result st',
    parse_non_section line st = Return (result, st') /\
    (forall item, result = Some item -> well_formed_item item) /\
    (brace_free (st_desc st) = true -> brace_free (st_desc st') = true).
Proof.
  unfold parse_non_section. destruct (cfgoptval_regex_match line) as [groups|].
  - destruct (flush_and_reset_returns st) as (r & st1 & -> & Hwf & Hbf). simpl.
    eexists _, _. split; [done|]. split; [done | done].
  - destruct (state_complete st) as [[] st1] eqn:Hc.
    + pose proof (state_complete_brace_free _ _ _ Hc) as Hbf.
      pose proof Hc as (sub & o & v & _ & ->)%state_complete_true.
      destruct (startswith "   " line); simpl.
      * eexists _, _. split; [done|]. split; [done | done].
      * eexists _, _. split; [done|]. split.
        -- intros ? [= <-]. apply new_well_formed.
        -- intros ?. simpl. by apply brace_free_strip, brace_free_strip.
    + pose proof Hc as ->%state_complete_false. simpl. rewrite Hc.
      eexists _, _. split; [done|]. split; [done | done].
Qed.

Lemma parse_line_not_doc_returns line st :
  startswith "#:" line = false ->
  exists result st',
    parse_line line st = Return (result, st') /\
    (forall item, result = Some item -> well_formed_item item) /\
    (brace_free (st_desc st) = true -> brace_free (st_desc st') = true).
Proof.
  intros Hdoc. unfold parse_line. rewrite Hdoc.
  destruct (startswith "[" line && endswith_char "]" line).
  - destruct (state_complete st) as [[] st1] eqn:Hc.
    + destruct (complete_item _ _ Hc) as (item & -> & Hwf). simpl.
      eexists _, _. split; [done|]. split; [by intros ? [= <-] | done].
    + simpl. eexists _, _. split; [done|]. split; [done | done].
  - apply parse_non_section_returns.
Qed.

(** Whatever a line emits is well formed. *)
Lemma parse_line_emits_well_formed line st item st' :
  parse_line line st = Return (Some item, st') -> well_formed_item item.
Proof.
  destruct (startswith "#:" line) eqn:Hdoc.
  - unfold parse_line. rewrite Hdoc.
    destruct (startswith "[" line && endswith_char "]" line).
    + destruct (state_complete st) as [[] st1] eqn:Hc.
      * destruct (complete_item _ _ Hc) as (it & -> & Hwf). simpl.
        by intros [= <- _].
      * simpl. discriminate.
    + destruct (flush_and_reset_returns st) as (r & st1 & -> & Hwf & _). simpl.
      destruct (PyFormat.format _ _); simpl; [|discriminate..].
      intros [= -> _]. by apply Hwf.
  - destruct (parse_line_not_doc_returns line st Hdoc) as (r & st1 & -> & Hwf & _).
    intros [= -> _]. by apply Hwf.
Qed.

(** A doc-comment without braces after a description without braces. *)
Lemma parse_line_returns line st :
  brace_free (st_desc st) = true ->
  (startswith "#:" line = true -> brace_free line = true) ->
  exists result st',
    parse_line line st = Return (result, st') /\ brace_free (st_desc st') = true.
Proof.
  intros Hst Hline. destruct (startswith "#:" line) eqn:Hdoc.
  - specialize (Hline eq_refl). unfold parse_line. rewrite Hdoc.
    destruct (startswith "[" line && endswith_char "]" line).
    + destruct (state_complete st) as [[] st1] eqn:Hc.
      * destruct (complete_item _ _ Hc) as (it & -> & Hwf). simpl.
        eexists _, _. split; done.
      * simpl. eexists _, _. split; done.
    + destruct (flush_and_reset_returns st) as (r & st1 & -> & _ & Hbf). simpl.
      specialize (Hbf Hst).
      assert (brace_free (strip (drop 2 line)) = true) as Hnew
        by (by apply brace_free_strip, brace_free_drop).
      case_decide.
      * simpl. rewrite format_brace_free by done. simpl.
        eexists _, _. split; done.
      * simpl.
        assert (brace_free (st_desc st1 +:+ " " +:+ strip (drop 2 line)) = true)
          as Hjoin by (repeat apply brace_free_app; done).
        rewrite format_brace_free by done. simpl.
        eexists _, _. split; done.
  - destruct (parse_line_not_doc_returns line st Hdoc) as (r & st1 & -> & _ & Hbf).
    eexists _, _. split; [done | by apply Hbf].
Qed.
End ParserFacts.

(** ** The loop over the lines *)

Module LoopFacts.
Import PyStr PyStrFacts ConfigINIParser ParserFacts.

Lemma parse_lines_returns lines st docitems :
  brace_free (st_desc st) = true ->
  (forall line, line ∈ lines -> startswith "#:" line = true -> brace_free line = true) ->
  exists docitems' st', parse_lines lines st docitems = Return (docitems', st').
Proof.
  revert st docitems. induction lines as [|line lines IH]; intros st docitems Hst Hlines.
  - simpl. eauto.
  - simpl.
    destruct (parse_line_returns (rstrip line) st Hst) as (r & st1 & -> & Hst1).
    { intros Hdoc. apply brace_free_rstrip, Hlines; [by left|].
      by apply startswith_rstrip. }
    simpl. destruct r; apply IH; try done; intros; apply Hlines; try done; by right.
Qed.

Lemma parse_lines_well_formed lines st docitems docitems' st' :
  parse_lines lines st docitems = Return (docitems', st') ->
  Forall well_formed_item docitems -> Forall well_formed_item docitems'.
Proof.
  revert st docitems. induction lines as [|line lines IH]; intros st docitems; simpl.
  - by intros [= <- _].
  - destruct (parse_line (rstrip line) st) as [[r st1]| |] eqn:Hline;
      simpl; [|discriminate..].
    destruct r as [item|]; intros Hrest Hwf; [|by eapply IH].
    eapply IH; [done|]. apply Forall_app. split; [done|].
    apply Forall_singleton. by eapply parse_line_emits_well_formed.
Qed.

Lemma emitted_returns lines :
  (forall line, line ∈ lines -> startswith "#:" line = true -> brace_free line = true) ->
  exists docitems, emitted lines = Return docitems.
Proof.
  intros Hlines. unfold emitted.
  destruct (parse_lines_returns lines initial_state [] eq_refl Hlines)
    as (ds & st & ->).
  simpl. destruct (state_complete st) as [[] st1] eqn:Hc; [|eauto].
  destruct (complete_item _ _ Hc) as (item & -> & _). simpl. eauto.
Qed.

Lemma emitted_well_formed lines docitems :
  emitted lines = Return docitems -> Forall well_formed_item docitems.
Proof.
  unfold emitted.
  destruct (parse_lines lines initial_state []) as [[ds st]| |] eqn:Hloop;
    simpl; [|discriminate..].
  pose proof (parse_lines_well_formed _ _ _ _ _ Hloop (Forall_nil_2 _)) as Hwf.
  destruct (state_complete st) as [[] st1] eqn:Hc; [|by intros [= <-]].
  destruct (complete_item _ _ Hc) as (item & -> & Hitem). simpl.
  intros [= <-]. apply Forall_app. split; [done|]. by apply Forall_singleton.
Qed.

Lemma dedupe_subset hash docitems item :
  item ∈ _dedupe hash docitems -> item ∈ docitems.
Proof.
  rewrite dedupe_unfold. intros Hin.
  apply (fold_by_values_last (DocItemM.__hash__ hash)) in Hin
    as (pre & suf & -> & _).
  apply elem_of_app. right. by left.
Qed.
End LoopFacts.

(** ** C3: what the parser raises *)

(** C3, as the code has it.  The text of a doc-comment is a format string
    over the keys [n] and [t].  When no doc-comment line holds a brace, the
    parse of the lines returns its tuple: every other line, a malformed
    option line included, is handled in any state without an exception. *)
Theorem parser_returns_without_braces (hash : list (option string) -> Z)
    (lines : list string) :
  (forall line, line ∈ lines ->
     PyStr.startswith "#:" line = true -> brace_free line = true) ->
  returns (ConfigINIParser._new__docitems hash lines) /\
  (forall ini_string, PyStr.splitlines ini_string = lines ->
     returns (ConfigINIParser.from_string hash ini_string)) /\
  (forall line st, PyStr.startswith "#:" line = false ->
     returns (ConfigINIParser.parse_line line st)).
Proof.
  intros Hlines.
  assert (returns (ConfigINIParser._new__docitems hash lines)) as Hret.
  { destruct (LoopFacts.emitted_returns lines Hlines) as (ds & Hds).
    unfold ConfigINIParser._new__docitems. rewrite Hds. by eexists. }
  split_and!; [done| |].
  - intros ini_string <-. exact Hret.
  - intros line st Hdoc.
    destruct (ParserFacts.parse_line_not_doc_returns line st Hdoc) as (r & st' & -> & _).
    by eexists.
Qed.

Lemma parser_returns_without_braces_witness :
  returns (ConfigINIParser.from_string example_hash
             ("[s]" +:+ LF +:+ "k e y = 1" +:+ LF +:+ "#: doc" +:+ LF +:+ "key: v")).
Proof.
  refine (proj1 (proj2 (parser_returns_without_braces example_hash
                          ["[s]"; "k e y = 1"; "#: doc"; "key: v"] _)) _ _).
  - intros line Hin Hdoc.
    repeat (apply elem_of_cons in Hin as [->|Hin]; [reflexivity || discriminate|]).
    inversion Hin.
  - reflexivity.
Defined.

(** C3, as stated, fails: a doc-comment naming a key other than [n] and
    [t] raises [KeyError] out of [from_string]. *)
Lemma doc_comment_with_braces_raises :
  ConfigINIParser.from_string example_hash "#: {x}" = Raise (Exn KeyError "x") /\
  ConfigINIParser.parse_line "#: {x}" ConfigINIParser.initial_state
    = Raise (Exn KeyError "x").
Proof. split; reflexivity. Qed.

(** ** C9: the items of a parse result *)

(** C9.  Every item of the tuple that a parse returns has its four fields
    set, a description without leading or trailing whitespace, and a value
    other than the empty string. *)
Theorem parsed_items_well_formed (hash : list (option string) -> Z)
    (lines : list string) (items : list DocItem) :
  ConfigINIParser._new__docitems hash lines = Return items ->
  forall item, item ∈ items -> well_formed_item item.
Proof.
  unfold ConfigINIParser._new__docitems.
  destruct (ConfigINIParser.emitted lines) as [ds| |] eqn:Hem; simpl; [|discriminate..].
  intros [= <-] item Hin%LoopFacts.dedupe_subset.
  apply LoopFacts.emitted_well_formed in Hem.
  by eapply Forall_forall in Hem.
Qed.

Lemma parsed_items_well_formed_witness :
  well_formed_item scenario_bar.
Proof.
  apply (parsed_items_well_formed example_hash scenario_lines [scenario_foo; scenario_bar]).
  - reflexivity.
  - right. left.
Defined.

(** ** C4: comparison and hash of items *)

(** C4, as the code has it.  Two items that agree on [subthing] and
    [option] have equal hashes, whatever their [desc] and [value]; but they
    are equal under [==] only if they agree on [desc] and [value] too, and
    [__cmp__], which is to compare the pairs, raises [NameError] on every
    call. *)
Theorem equal_pairs_hash_equal_but_differ (hash : list (option string) -> Z)
    (a b : DocItem) :
  di_subthing a = di_subthing b ->
  di_option a = di_option b ->
  DocItemM.__hash__ hash a = DocItemM.__hash__ hash b /\
  (DocItemM.__eq__ a b = true <-> di_desc a = di_desc b /\ di_value a = di_value b) /\
  DocItemM.__cmp__ a b = Raise (Exn NameError "name 'cmp' is not defined").
Proof.
  intros Hs Ho. split_and!.
  - unfold DocItemM.__hash__. by rewrite Hs, Ho.
  - unfold DocItemM.__eq__. rewrite bool_decide_eq_true, Hs, Ho. split.
    + by intros [= -> ->].
    + by intros [-> ->].
  - reflexivity.
Qed.

Lemma equal_pairs_hash_equal_but_differ_witness :
  DocItemM.__hash__ example_hash
                    (DocItemBase (Some "s") (Some "o") (Some "first") (Some "1"))
    = DocItemM.__hash__ example_hash
                    (DocItemBase (Some "s") (Some "o") (Some "second") (Some "2")) /\
  DocItemM.__eq__ (DocItemBase (Some "s") (Some "o") (Some "first") (Some "1"))
                  (DocItemBase (Some "s") (Some "o") (Some "second") (Some "2"))
    = false /\
  DocItemM.__cmp__ (DocItemBase (Some "s") (Some "o") (Some "first") (Some "1"))
                   (DocItemBase (Some "s") (Some "o") (Some "second") (Some "2"))
    = Raise (Exn NameError "name 'cmp' is not defined").
Proof.
  destruct (equal_pairs_hash_equal_but_differ example_hash
              (DocItemBase (Some "s") (Some "o") (Some "first") (Some "1"))
              (DocItemBase (Some "s") (Some "o") (Some "second") (Some "2"))
              eq_refl eq_refl) as (Hh & Heq & Hc).
  split; [exact Hh|]. split; [|exact Hc].
  destruct (DocItemM.__eq__ _ _) eqn:He; [|reflexivity].
  destruct (proj1 Heq eq_refl) as [Hd _]. discriminate Hd.
Defined.

(** ** C5 and C10: continuation lines and lines with leading whitespace *)

Module ContinuationFacts.
Import PyStr PyStrFacts ConfigINIParser ParserFacts.



End ContinuationFacts.






Lemma dedupe_last_wins_witness :
  ConfigINIParser._dedupe example_hash overriding_items
  = [DocItemBase (Some "s") (Some "a") (Some "new") (Some "3");
     DocItemBase (Some "s") (Some "b") (Some "doc") (Some "2")].
Proof.
  assert (collision_free example_hash overriding_items) as Hfree.
  { intros a b Ha Hb Hh. unfold overriding_items in Ha, Hb.
    repeat (apply elem_of_cons in Ha as [->|Ha]);
      repeat (apply elem_of_cons in Hb as [->|Hb]);
      try (by inversion Ha); try (by inversion Hb);
      first [reflexivity | vm_compute in Hh; discriminate Hh]. }
  destruct (dedupe_last_wins example_hash overriding_items Hfree) as (_ & Hres & _).
  rewrite Hres. reflexivity.
Defined.

(** ** C6 and C7: the section names *)

(** [from_string] leaves the three caches empty. *)
Lemma from_string_caches_empty (hash : list (option string) -> Z)
    (ini_string : string) (self : instance) :
  Properties.from_string hash ini_string = Return self ->
  source self = IniString ini_string /\
  _subthing_names self = None /\ _subtest_name self = None /\ _subsub_names self = None.
Proof.
  unfold Properties.from_string.
  destruct (ConfigINIParser.from_string hash ini_string); simpl; [|discriminate..].
  by intros [= <-].
Qed.

Section PropertyFacts.
Variable sections : ini_source -> outcome (list string).

(** With no sections, the message of the error quotes the source. *)
Lemma subthing_names_no_sections self :
  _subthing_names self = None ->
  sections (source self) = Return [] ->
  exists msg,
    Properties.subthing_names sections self = (Raise (Exn IOError msg), self) /\
    names_source (source self) msg.
Proof.
  intros Hcache Hnone. unfold Properties.subthing_names. rewrite Hcache, Hnone. simpl.
  destruct (source self) as [f|text].
  - eexists. split; [done|].
    exists "No sections found in ini file: ", EmptyString.
    by rewrite PyStrFacts.app_empty_r.
  - eexists. split; [done|].
    by exists "No sections found in ini string: '", "'".
Qed.

(** With sections, the access ends at the sort, before the cache is set. *)
Lemma subthing_names_at_the_sort self names :
  _subthing_names self = None ->
  sections (source self) = Return names -> names <> [] ->
  Properties.subthing_names sections self
  = (Raise (Exn TypeError "sort() takes no positional arguments"), self).
Proof.
  intros Hcache Hnames Hne. unfold Properties.subthing_names.
  rewrite Hcache, Hnames. by destruct names.
Qed.

Lemma subtest_name_at_the_sort self names :
  _subthing_names self = None -> _subtest_name self = None ->
  sections (source self) = Return names -> names <> [] ->
  Properties.subtest_name sections self
  = (Raise (Exn TypeError "sort() takes no positional arguments"), self).
Proof.
  intros Hcache Hcache' Hnames Hne. unfold Properties.subtest_name, access_bind.
  by rewrite Hcache', (subthing_names_at_the_sort self names).
Qed.

Lemma subsub_names_at_the_sort self names :
  _subthing_names self = None -> _subsub_names self = None ->
  sections (source self) = Return names -> names <> [] ->
  Properties.subsub_names sections self
  = (Raise (Exn TypeError "sort() takes no positional arguments"), self).
Proof.
  intros Hcache Hcache' Hnames Hne. unfold Properties.subsub_names, access_bind.
  by rewrite Hcache', (subthing_names_at_the_sort self names).
Qed.
End PropertyFacts.

(** C6, as the code has it.  On an instance whose caches are empty, as
    [from_string] leaves them, and whose source has sections, [subtest_name]
    neither returns the shortest name nor raises [IOError] for a tie: the
    access raises [TypeError] at the sort of [subthing_names] and leaves the
    instance as it was. *)
Theorem subtest_name_raises_at_the_sort (sections : ini_source -> outcome (list string))
    (self : instance) (names : list string) :
  _subthing_names self = None ->
  _subtest_name self = None ->
  sections (source self) = Return names ->
  names <> [] ->
  Properties.subtest_name sections self
  = (Raise (Exn TypeError "sort() takes no positional arguments"), self).
Proof. apply subtest_name_at_the_sort. Qed.

Lemma subtest_name_raises_at_the_sort_witness :
  Properties.subtest_name tied_sections fresh_instance
  = (Raise (Exn TypeError "sort() takes no positional arguments"), fresh_instance) /\
  Properties.subtest_name nested_sections fresh_instance
  = (Raise (Exn TypeError "sort() takes no positional arguments"), fresh_instance).
Proof.
  split.
  - apply (subtest_name_raises_at_the_sort tied_sections fresh_instance ["ab"; "abc"; "cd"]);
      done.
  - apply (subtest_name_raises_at_the_sort nested_sections fresh_instance ["a"; "ab"; "abc"]);
      done.
Defined.

(** C7, as the code has it.  On an instance whose caches are empty,
    [subthing_names] raises what the reference parser raises; an [IOError]
    whose message quotes the source when the parser finds no section; and,
    when it finds sections, [TypeError] at the sort, so that no names are
    returned and the cache stays empty.  [subsub_names] ends in the same
    way.  For the sections [a], [ab], [abc] every one of the three accesses
    raises [TypeError]. *)
Theorem subthing_names_raises_at_the_sort (sections : ini_source -> outcome (list string))
    (self : instance) :
  _subthing_names self = None ->
  (forall e, sections (source self) = Raise e ->
     Properties.subthing_names sections self = (Raise e, self)) /\
  (sections (source self) = Return [] ->
   exists msg,
     Properties.subthing_names sections self = (Raise (Exn IOError msg), self) /\
     names_source (source self) msg) /\
  (forall names,
     sections (source self) = Return names -> names <> [] ->
     Properties.subthing_names sections self
     = (Raise (Exn TypeError "sort() takes no positional arguments"), self) /\
     (_subsub_names self = None ->
      Properties.subsub_names sections self
      = (Raise (Exn TypeError "sort() takes no positional arguments"), self))).
Proof.
  intros Hcache. split_and!.
  - intros e He. unfold Properties.subthing_names. by rewrite Hcache, He.
  - by apply subthing_names_no_sections.
  - intros names Hnames Hne. split.
    + by apply (subthing_names_at_the_sort sections self names).
    + intros Hcache'. by apply (subsub_names_at_the_sort sections self names).
Qed.

Lemma subthing_names_raises_at_the_sort_witness :
  Properties.subthing_names nested_sections fresh_instance
  = (Raise (Exn TypeError "sort() takes no positional arguments"), fresh_instance) /\
  Properties.subsub_names nested_sections fresh_instance
  = (Raise (Exn TypeError "sort() takes no positional arguments"), fresh_instance).
Proof.
  destruct (proj2 (proj2 (subthing_names_raises_at_the_sort nested_sections
                            fresh_instance eq_refl)) ["a"; "ab"; "abc"] eq_refl)
    as [Hnames Hsubsub]; [done|].
  split; [exact Hnames | exact (Hsubsub eq_refl)].
Defined.

(** ** C8: the composer *)

Section DictUpdateFacts.
Implicit Types (d o : list (string * string)) (k : string).

Lemma dict_get_update k d o :
  dict_get k (dict_update d o) = or_else (dict_get k (as_dict o)) (dict_get k d).
Proof.
  unfold as_dict, dict_update. revert d. induction o as [|[k0 v0] o IH]; intros d; simpl.
  - done.
  - rewrite IH, (IH [(k0, v0)]), dict_get_setitem. simpl.
    destruct (dict_get k (foldl _ [] o)); simpl; [done|].
    by destruct (decide (k = k0)).
Qed.
End DictUpdateFacts.

Module PercentFacts.
Import PyStr PyStrFacts PyPercent.

Lemma percent_free_spec s :
  percent_free s = true <-> any (fun c => bool_decide (c = "%"%char)) s = false.
Proof. unfold percent_free. by rewrite negb_true_iff. Qed.

Lemma paren_free_spec s :
  paren_free s = true <->
  any (fun c => bool_decide (c = "("%char) || bool_decide (c = ")"%char)) s = false.
Proof. unfold paren_free. by rewrite negb_true_iff. Qed.

(** Literal text is copied. *)
Lemma percent_literal dct lit s :
  percent_free lit = true ->
  percent_from dct Lit (lit +:+ s)
  = r ← percent_from dct Lit s; Return (lit +:+ r).
Proof.
  rewrite percent_free_spec. induction lit as [|c lit IH]; simpl.
  - intros _. rewrite app_empty_l. by destruct (percent_from dct Lit s).
  - intros [Hc Hlit]%orb_false_iff. rewrite ?app_cons. simpl. rewrite Hc, (IH Hlit).
    by destruct (percent_from dct Lit s).
Qed.

(** A key is read up to its closing parenthesis and looked up at once. *)
Lemma percent_key dct acc key s :
  paren_free key = true ->
  percent_from dct (Key 0 acc) (key +:+ ")" +:+ s)
  = match dict_get (acc +:+ key) dct with
    | Some v => percent_from dct (Conv v) s
    | None => Raise (Exn KeyError (acc +:+ key))
    end.
Proof.
  rewrite paren_free_spec. revert acc. induction key as [|c key IH]; intros acc; simpl.
  - intros _. rewrite app_empty_l, app_empty_r. reflexivity.
  - intros [[Ho Hc]%orb_false_iff Hkey]%orb_false_iff.
    rewrite ?app_cons. simpl. rewrite Ho, Hc, (IH _ Hkey).
    by rewrite app_assoc.
Qed.

(** A template that is substituted on its own is substituted in the same
    way at the head of a longer one. *)
Lemma percent_prefix dct m pre out s :
  percent_from dct m pre = Return out ->
  percent_from dct m (pre +:+ s)
  = r ← percent_from dct Lit s; Return (out +:+ r).
Proof.
  revert m out. induction pre as [|c pre IH]; intros m out.
  - destruct m; simpl; try discriminate. intros [= <-].
    rewrite app_empty_l. by destruct (percent_from dct Lit s).
  - rewrite app_cons. destruct m as [| |pcount key|v]; simpl.
    + case_bool_decide.
      * apply IH.
      * destruct (percent_from dct Lit pre) as [o| |] eqn:Hpre; simpl; try discriminate.
        intros [= <-]. rewrite (IH _ _ Hpre).
        by destruct (percent_from dct Lit s).
    + case_bool_decide.
      * destruct (percent_from dct Lit pre) as [o| |] eqn:Hpre; simpl; try discriminate.
        intros [= <-]. rewrite (IH _ _ Hpre).
        by destruct (percent_from dct Lit s).
      * case_bool_decide; [apply IH | discriminate].
    + case_bool_decide.
      * destruct pcount; [|apply IH].
        destruct (dict_get key dct); [apply IH | discriminate].
      * case_bool_decide; apply IH.
    + case_bool_decide; [|discriminate].
      destruct (percent_from dct Lit pre) as [o| |] eqn:Hpre; simpl; try discriminate.
      intros [= <-]. rewrite (IH _ _ Hpre).
      destruct (percent_from dct Lit s); simpl; try done.
      by rewrite app_assoc.
Qed.

Lemma percent_missing_key dct pre out key s :
  percent pre dct = Return out -> paren_free key = true ->
  dict_get key dct = None ->
  percent (pre +:+ "%(" +:+ key +:+ ")" +:+ s) dct = Raise (Exn KeyError key).
Proof.
  intros Hpre Hkey Hget. unfold percent. rewrite (percent_prefix _ _ _ _ _ Hpre).
  change ("%(" +:+ key +:+ ")" +:+ s) with (String "%" (String "(" (key +:+ ")" +:+ s))).
  simpl. rewrite percent_key by done. rewrite app_empty_l, Hget. done.
Qed.

Lemma percent_present_key dct pre out key v s :
  percent pre dct = Return out -> paren_free key = true ->
  dict_get key dct = Some v ->
  percent (pre +:+ "%(" +:+ key +:+ ")s" +:+ s) dct
  = r ← percent s dct; Return (out +:+ v +:+ r).
Proof.
  intros Hpre Hkey Hget. unfold percent. rewrite (percent_prefix _ _ _ _ _ Hpre).
  change ("%(" +:+ key +:+ ")s" +:+ s)
    with (String "%" (String "(" (key +:+ ")" +:+ String "s" s))).
  simpl. rewrite percent_key by done. rewrite app_empty_l, Hget. simpl.
  by destruct (percent_from dct Lit s).
Qed.
End PercentFacts.

Lemma or_else_None (x : option string) : or_else x None = x.
Proof. by destruct x. Qed.

Lemma merged_dct_lookup (self : DocBase) (k : string) :
  dict_get k (DocBaseM.merged_dct self)
  = or_else (dict_get k (as_dict (DocBaseM.get_sub_method_args_dct self)))
      (or_else (dict_get k (as_dict (DocBaseM.get_sub_method_dct self)))
         (dict_get k (as_dict (default [] (sub_str self))))).
Proof.
  unfold DocBaseM.merged_dct, DocBaseM.get_sub_method_args_dct,
    DocBaseM.get_sub_method_dct.
  destruct (sub_method_args self) as [calls|], (sub_method self) as [methods|],
    (sub_str self) as [strs|]; simpl; rewrite ?dict_get_update; simpl;
    rewrite ?or_else_None; reflexivity.
Qed.

(** C8, as the code has it.  The dictionary of a render is merged from
    [sub_str], then the results of [sub_method], then those of
    [sub_method_args], a later source winning on a key.  When it is empty the
    template is taken as it is; otherwise the template is substituted with
    [%], where a [%(key)s] whose key the dictionary holds is replaced by the
    value, and one whose key it lacks does not pass through: the [KeyError]
    reaches the handler of [do_sub_str], which raises [AttributeError].  The
    composed string goes through [conv] and is stripped. *)
Theorem render_merges_then_substitutes (dict_str : list (string * string) -> string)
    (self : DocBase) :
  let dct := DocBaseM.merged_dct self in
  (forall k,
     dict_get k dct
     = or_else (dict_get k (as_dict (DocBaseM.get_sub_method_args_dct self)))
         (or_else (dict_get k (as_dict (DocBaseM.get_sub_method_dct self)))
            (dict_get k (as_dict (default [] (sub_str self)))))) /\
  (dct = [] ->
   DocBaseM.__str__ dict_str self = Return (PyStr.strip (conv self (fmt self)))) /\
  (dct <> [] ->
   forall output_string,
     PyPercent.percent (fmt self) dct = Return output_string ->
     DocBaseM.__str__ dict_str self = Return (PyStr.strip (conv self output_string))) /\
  (dct <> [] ->
   forall before substituted key rest,
     fmt self = before +:+ "%(" +:+ key +:+ ")" +:+ rest ->
     PyPercent.percent before dct = Return substituted ->
     paren_free key = true ->
     dict_get key dct = None ->
     DocBaseM.__str__ dict_str self
     = Raise (Exn AttributeError "'KeyError' object has no attribute 'message'")) /\
  (forall before substituted key rest v,
     PyPercent.percent before dct = Return substituted ->
     paren_free key = true ->
     dict_get key dct = Some v ->
     PyPercent.percent (before +:+ "%(" +:+ key +:+ ")s" +:+ rest) dct
     = r ← PyPercent.percent rest dct; Return (substituted +:+ v +:+ r)) /\
  (conv self = DocBaseM.conv_default ->
   forall output_string,
     DocBaseM.__str__ dict_str self = Return output_string ->
     outer_space_free output_string).
Proof.
  intros dct. split_and!.
  - apply merged_dct_lookup.
  - intros Hnil. unfold DocBaseM.__str__. fold dct. by rewrite Hnil.
  - intros Hne out Hout. unfold DocBaseM.__str__, DocBaseM.do_sub_str. fold dct.
    destruct dct; [done|]. by rewrite Hout.
  - intros Hne before substituted key rest Hfmt Hbefore Hkey Hget.
    unfold DocBaseM.__str__, DocBaseM.do_sub_str. fold dct.
    destruct dct as [|kv dct'] eqn:Hdct; [done|].
    rewrite Hfmt at 1. by rewrite (PercentFacts.percent_missing_key _ _ _ _ _ Hbefore).
  - intros before substituted key rest v Hbefore Hkey Hget.
    by apply PercentFacts.percent_present_key.
  - intros Hconv out. unfold DocBaseM.__str__.
    destruct (match DocBaseM.merged_dct self with [] => _ | _ :: _ => _ end)
      as [o| |]; simpl; [|discriminate..].
    intros [= <-]. apply PyStrFacts.strip_outer_space_free.
Qed.

Lemma render_merges_then_substitutes_witness :
  DocBaseM.__str__ example_dict_str colliding_doc = Return "x-b! 100%" /\
  DocBaseM.__str__ example_dict_str missing_key_doc
  = Raise (Exn AttributeError "'KeyError' object has no attribute 'message'").
Proof.
  split.
  - refine (proj1 (proj2 (proj2 (render_merges_then_substitutes example_dict_str
                                   colliding_doc))) _ "  x-b! 100% " _).
    + discriminate.
    + reflexivity.
  - refine (proj1 (proj2 (proj2 (proj2 (render_merges_then_substitutes example_dict_str
                                          missing_key_doc)))) _ "%(a)s " "x " "b" "s" _ _ _ _).
    + discriminate.
    + reflexivity.
    + reflexivity.
    + reflexivity.
    + reflexivity.
Defined.

(** * Further properties of the parser *)

(** Case analysis on one call of [parse_line]. *)
Ltac parse_line_cases line st :=
  unfold ConfigINIParser.parse_line, ConfigINIParser.parse_non_section,
    ConfigINIParser.flush_and_reset;
  destruct (PyStr.startswith "[" line && PyStr.endswith_char "]" line) eqn:Hheader;
  destruct (PyStr.startswith "#:" line) eqn:Hdoc;
  destruct (ConfigINIParser.cfgoptval_regex_match line) as [[? ?]|] eqn:Hmatch;
  destruct (PyStr.startswith "   " line) eqn:Hthree;
  destruct st as [[?|] [?|] ? [?|]];
  cbn -[PyStr.strip PyStr.drop PyStr.lstrip PyStr.rstrip PyFormat.format
        String.append PyStr.slice_1_m1];
  repeat case_decide;
  cbn -[PyStr.strip PyStr.drop PyStr.lstrip PyStr.rstrip PyFormat.format
        String.append PyStr.slice_1_m1];
  repeat match goal with
         | |- context [PyFormat.format ?a ?b] =>
             let E := fresh "Hformat" in
             destruct (PyFormat.format a b) eqn:E;
             cbn -[PyStr.strip PyStr.drop PyStr.lstrip PyStr.rstrip PyFormat.format
                   String.append PyStr.slice_1_m1]
         end.

Lemma new_subthing s o d v : di_subthing (DocItemM.new s o d v) = s.
Proof. unfold DocItemM.new. by case_decide. Qed.

Lemma new_option s o d v : di_option (DocItemM.new s o d v) = o.
Proof. unfold DocItemM.new. by case_decide. Qed.

Lemma new_desc s o d v : di_desc (DocItemM.new s o d v) = d.
Proof. unfold DocItemM.new. by case_decide. Qed.

Lemma new_value s o d v :
  di_value (DocItemM.new s o d v)
  = if decide (v = Some EmptyString) then Some DocItemM.empty_value else v.
Proof. unfold DocItemM.new. simpl. by case_decide. Qed.

Module LineFacts.
Import PyStr PyStrFacts ConfigINIParser ParserFacts.

(** An emitted item carries the section, the option and the value that the
    state held, and the state was complete. *)
Lemma parse_line_emits_pending line st item st' :
  parse_line line st = Return (Some item, st') ->
  pending st = 1 /\
  di_subthing item = st_subthing st /\ di_option item = st_option st.
Proof.
  unfold pending. parse_line_cases line st; intros; simplify_eq/=;
    by rewrite ?new_subthing, ?new_option.
Qed.

(** Only a header changes the section of the state. *)
Lemma parse_line_subthing line st r st' :
  parse_line line st = Return (r, st') ->
  st_subthing st' = if is_header line then Some (slice_1_m1 line) else st_subthing st.
Proof.
  unfold is_header. parse_line_cases line st; intros; simplify_eq/=; done.
Qed.

(** A header line resets the state, whatever it was. *)
Lemma parse_line_header line st r st' :
  is_header line = true ->
  parse_line line st = Return (r, st') ->
  st' = State (Some (slice_1_m1 line)) None undoc_option_doc None.
Proof.
  unfold is_header. intros Hh. revert Hh.
  parse_line_cases line st; intros; simplify_eq/=; done.
Qed.

Lemma strip_undoc : strip undoc_option_doc = undoc_option_doc.
Proof. reflexivity. Qed.

(** Without a doc-comment the description stays the placeholder. *)
Lemma parse_line_keeps_undoc line st r st' :
  startswith "#:" line = false ->
  st_desc st = undoc_option_doc ->
  parse_line line st = Return (r, st') ->
  st_desc st' = undoc_option_doc /\
  (forall item, r = Some item -> di_desc item = Some undoc_option_doc).
Proof.
  intros Hd. revert Hd.
  parse_line_cases line st; intros; simplify_eq/=;
    rewrite ?strip_undoc; split; try done; intros; simplify_eq/=;
    by rewrite ?new_desc, ?strip_undoc.
Qed.

Lemma pending_le_1 st : pending st <= 1.
Proof. unfold pending. destruct (state_complete st).1; lia. Qed.

End LineFacts.

Module LoopInvariants.
Import PyStr PyStrFacts ConfigINIParser ParserFacts LineFacts.

(** Induction over the loop of [_new__docitems]. *)
Lemma parse_lines_invariant (I : state -> list DocItem -> Prop) lines st ds ds' st' :
  parse_lines lines st ds = Return (ds', st') ->
  I st ds ->
  (forall line st0 ds0 r st1,
     line ∈ lines -> I st0 ds0 ->
     parse_line (rstrip line) st0 = Return (r, st1) ->
     I st1 (match r with Some item => ds0 ++ [item] | None => ds0 end)) ->
  I st' ds'.
Proof.
  revert st ds. induction lines as [|line lines IH]; intros st ds; simpl.
  - by intros [= <- <-].
  - destruct (parse_line (rstrip line) st) as [[r st1]| |] eqn:Hline;
      simpl; [|discriminate..].
    intros Hrest HI Hstep.
    assert (I st1 (match r with Some item => ds ++ [item] | None => ds end)) as HI1
      by (eapply Hstep; [by left | done..]).
    destruct r as [item|]; (eapply IH; [done | done |]);
      intros; eapply Hstep; try done; by right.
Qed.

(** What [emitted] adds to the items of the loop. *)
Lemma emitted_inv lines ds :
  emitted lines = Return ds ->
  exists ds0 st,
    parse_lines lines initial_state [] = Return (ds0, st) /\
    ((pending st = 0 /\ ds = ds0) \/
     (pending st = 1 /\ exists item,
        ds = ds0 ++ [item] /\
        di_subthing item = st_subthing st /\ di_option item = st_option st /\
        di_desc item = Some (strip (st_desc st)))).
Proof.
  unfold emitted, pending.
  destruct (parse_lines lines initial_state []) as [[ds0 st]| |]; simpl;
    [|discriminate..].
  destruct st as [[?|] [?|] ? [?|]]; cbn -[strip]; intros [= <-];
    eexists _, _; (split; [done|]); cbn -[strip]; try (by left).
  right. split; [done|]. eexists. split; [done|].
  by rewrite new_subthing, new_option, new_desc.
Qed.




Lemma rstrip_spaces ws : all isspace ws = true -> rstrip ws = EmptyString.
Proof.
  induction ws as [|c ws IH]; simpl; [done|].
  intros [-> Hws]%andb_true_iff. by rewrite (IH Hws).
Qed.

Lemma rstrip_app_spaces s ws : all isspace ws = true -> rstrip (s +:+ ws) = rstrip s.
Proof.
  intros Hws. induction s as [|c s IH].
  - rewrite app_empty_l. by apply rstrip_spaces.
  - rewrite app_cons. simpl. by rewrite IH.
Qed.

Lemma parse_lines_same_rstrip lines lines' st ds :
  Forall2 (fun a b => rstrip a = rstrip b) lines lines' ->
  parse_lines lines st ds = parse_lines lines' st ds.
Proof.
  intros H. revert st ds. induction H as [|a b lines lines' Hab _ IH]; intros st ds;
    simpl; [done|].
  rewrite Hab. destruct (parse_line (rstrip b) st) as [[[item|] st1]| |]; simpl;
    try done; apply IH.
Qed.

Lemma dict_setitem_length {K V : Type} `{EqDecision K} (k : K) (v : V) d :
  length (dict_setitem k v d) <= S (length d).
Proof.
  induction d as [|[k0 v0] d IH]; simpl; [lia|].
  case_decide; simpl; lia.
Qed.

Lemma dedupe_length hash ds : length (_dedupe hash ds) <= length ds.
Proof.
  rewrite dedupe_unfold. unfold dict_values. rewrite length_map.
  assert (forall m, length (foldl (dedupe_step hash) m ds) <= length m + length ds)
    as H; [|apply (H [])].
  induction ds as [|d ds IH]; intros m; simpl; [lia|].
  etrans; [apply IH|]. unfold dedupe_step.
  pose proof (dict_setitem_length (DocItemM.__hash__ hash d) d m). lia.
Qed.

Lemma parse_lines_count lines st ds ds' st' :
  parse_lines lines st ds = Return (ds', st') ->
  length ds' + pending st' <= length ds + pending st + length lines.
Proof.
  revert st ds. induction lines as [|line lines IH]; intros st ds; simpl.
  - intros [= <- <-]. lia.
  - destruct (parse_line (rstrip line) st) as [[r st1]| |] eqn:Hline;
      simpl; [|discriminate..].
    pose proof (pending_le_1 st1) as H1.
    destruct r as [item|]; intros Hrest%IH.
    + apply parse_line_emits_pending in Hline as (Hp & _).
      rewrite length_app in Hrest. simpl in Hrest. lia.
    + lia.
Qed.
End LoopInvariants.



(** X2.  The section of every item of a parse result is the text between
    the brackets of a header line of the input. *)
Theorem item_sections_are_headers (hash : list (option string) -> Z)
    (lines : list string) (items : list DocItem) :
  ConfigINIParser._new__docitems hash lines = Return items ->
  forall item, item ∈ items ->
    exists line, line ∈ lines /\ is_header (PyStr.rstrip line) = true /\
                 di_subthing item = Some (PyStr.slice_1_m1 (PyStr.rstrip line)).
Proof.
  unfold ConfigINIParser._new__docitems.
  destruct (ConfigINIParser.emitted lines) as [ds| |] eqn:Hem; simpl; [|discriminate..].
  intros [= <-] item Hin%LoopFacts.dedupe_subset.
  set (Q := fun s : option string =>
              s = None \/ exists line, line ∈ lines /\ is_header (PyStr.rstrip line) = true /\
                          s = Some (PyStr.slice_1_m1 (PyStr.rstrip line))).
  destruct (LoopInvariants.emitted_inv _ _ Hem) as (ds0 & st & Hloop & Hlast).
  assert (Q (st_subthing st) /\ Forall (fun it => Q (di_subthing it)) ds0) as [HQ Hall].
  { apply (LoopInvariants.parse_lines_invariant
             (fun st ds => Q (st_subthing st) /\ Forall (fun it => Q (di_subthing it)) ds)
             _ _ _ _ _ Hloop).
    - split; [by left | constructor].
    - intros line st0 ds1 r st1 Hline [HQ0 Hds1] Hstep. split.
      + rewrite (LineFacts.parse_line_subthing _ _ _ _ Hstep).
        destruct (is_header (PyStr.rstrip line)) eqn:Hh; [|done].
        right. by exists line.
      + destruct r as [it|]; [|done].
        apply Forall_app. split; [done|]. apply Forall_singleton.
        apply LineFacts.parse_line_emits_pending in Hstep as (_ & -> & _). done. }
  assert (Q (di_subthing item)) as HQi.
  { destruct Hlast as [[_ ->]|[_ (last & -> & Hs & _)]].
    - by eapply Forall_forall in Hall.
    - apply elem_of_app in Hin as [Hin| ->%list_elem_of_singleton].
      + by eapply Forall_forall in Hall.
      + by rewrite Hs. }
  destruct HQi as [Hnone|?]; [|done]. exfalso.
  assert (Forall well_formed_item ds) as Hwf by (by eapply LoopFacts.emitted_well_formed).
  eapply Forall_forall in Hwf; [|done]. destruct Hwf as ([? Hsome] & _). congruence.
Qed.

Lemma item_sections_are_headers_witness :
  exists line, line ∈ scenario_lines /\ is_header (PyStr.rstrip line) = true /\
               di_subthing scenario_bar = Some (PyStr.slice_1_m1 (PyStr.rstrip line)).
Proof.
  apply (item_sections_are_headers example_hash scenario_lines
           [scenario_foo; scenario_bar]).
  - reflexivity.
  - right. left.
Defined.

(** X3.  The parser emits at most one item for each input line, so a parse
    result is never longer than the input. *)
Theorem at_most_one_item_per_line (hash : list (option string) -> Z)
    (lines : list string) (items : list DocItem) :
  ConfigINIParser._new__docitems hash lines = Return items ->
  length items <= length lines.
Proof.
  unfold ConfigINIParser._new__docitems.
  destruct (ConfigINIParser.emitted lines) as [ds| |] eqn:Hem; simpl; [|discriminate..].
  intros [= <-]. etrans; [apply LoopInvariants.dedupe_length|].
  destruct (LoopInvariants.emitted_inv _ _ Hem) as (ds0 & st & Hloop & Hlast).
  apply LoopInvariants.parse_lines_count in Hloop. simpl in Hloop.
  change (pending ConfigINIParser.initial_state) with 0 in Hloop.
  destruct Hlast as [[? ->]|[? (last & -> & _)]]; rewrite ?length_app; simpl; lia.
Qed.

Lemma at_most_one_item_per_line_witness :
  length [scenario_foo; scenario_bar] <= length scenario_lines.
Proof.
  apply (at_most_one_item_per_line example_hash). reflexivity.
Defined.

Module StripFacts.
Import PyStr PyStrFacts.





Lemma last_char_snoc s c : last_char (s +:+ String c EmptyString) = Some c.
Proof.
  induction s as [|a s IH]; [done|]. rewrite app_cons. simpl. rewrite IH.
  destruct s; reflexivity.
Qed.

Lemma removelast_snoc s c : removelast (s +:+ String c EmptyString) = s.
Proof.
  induction s as [|a s IH]; [done|]. rewrite app_cons. simpl. rewrite IH.
  destruct s; reflexivity.
Qed.


End StripFacts.

(** X4.  Trailing whitespace of the input lines never changes the result
    of a parse. *)
Theorem trailing_whitespace_ignored (hash : list (option string) -> Z)
    (lines padded : list string) :
  Forall2 (fun line wide => exists ws, PyStr.all PyStr.isspace ws = true /\
                                       wide = line +:+ ws) lines padded ->
  ConfigINIParser._new__docitems hash padded = ConfigINIParser._new__docitems hash lines.
Proof.
  intros Hpad. unfold ConfigINIParser._new__docitems, ConfigINIParser.emitted.
  rewrite (LoopInvariants.parse_lines_same_rstrip padded lines); [done|].
  induction Hpad as [|line wide lines padded (ws & Hws & ->) _ IH]; constructor; [|done].
  by apply LoopInvariants.rstrip_app_spaces.
Qed.

Lemma trailing_whitespace_ignored_witness :
  ConfigINIParser._new__docitems example_hash ["[s]  "; String "k" (String "=" (String "v" (String "009" EmptyString)))]
  = ConfigINIParser._new__docitems example_hash ["[s]"; "k=v"].
Proof.
  apply (trailing_whitespace_ignored example_hash).
  constructor; [by exists "  "|].
  constructor; [by exists (String "009" EmptyString)|]. constructor.
Defined.

(** X5.  When no line of the input is a doc-comment, the parse returns, and
    every item carries the placeholder for undocumented options as its
    description. *)
Theorem undocumented_options_get_placeholder (hash : list (option string) -> Z)
    (lines : list string) :
  (forall line, line ∈ lines -> PyStr.startswith "#:" (PyStr.rstrip line) = false) ->
  exists items,
    ConfigINIParser._new__docitems hash lines = Return items /\
    forall item, item ∈ items ->
      di_desc item = Some ConfigINIParser.undoc_option_doc.
Proof.
  intros Hlines.
  assert (forall st ds,
            st_desc st = ConfigINIParser.undoc_option_doc ->
            Forall (fun it => di_desc it = Some ConfigINIParser.undoc_option_doc) ds ->
            exists ds' st',
              ConfigINIParser.parse_lines lines st ds = Return (ds', st') /\
              st_desc st' = ConfigINIParser.undoc_option_doc /\
              Forall (fun it => di_desc it = Some ConfigINIParser.undoc_option_doc) ds')
    as Hloop.
  { induction lines as [|line lines IH]; intros st ds Hst Hds; simpl; [eauto|].
    assert (PyStr.startswith "#:" (PyStr.rstrip line) = false) as Hdoc
      by (apply Hlines; by left).
    destruct (ParserFacts.parse_line_not_doc_returns _ st Hdoc) as (r & st1 & Hstep & _).
    rewrite Hstep. simpl.
    destruct (LineFacts.parse_line_keeps_undoc _ _ _ _ Hdoc Hst Hstep) as (Hst1 & Hr).
    destruct r as [item|]; apply IH; try done.
    - intros; apply Hlines; by right.
    - apply Forall_app. split; [done|]. apply Forall_singleton. by apply Hr.
    - intros; apply Hlines; by right. }
  destruct (Hloop ConfigINIParser.initial_state [] eq_refl (Forall_nil_2 _))
    as (ds & st & Hrun & Hst & Hds).
  assert (exists ds', ConfigINIParser.emitted lines = Return ds' /\
            Forall (fun it => di_desc it = Some ConfigINIParser.undoc_option_doc) ds')
    as (ds' & Hem & Hds').
  { unfold ConfigINIParser.emitted. rewrite Hrun. simpl.
    destruct st as [[?|] [?|] ? [?|]]; cbn -[PyStr.strip]; eauto.
    eexists. split; [done|]. apply Forall_app. split; [done|].
    apply Forall_singleton. simpl in Hst. subst.
    by rewrite new_desc, LineFacts.strip_undoc. }
  unfold ConfigINIParser._new__docitems. rewrite Hem. simpl.
  eexists. split; [done|]. intros item Hin%LoopFacts.dedupe_subset.
  by eapply Forall_forall in Hds'.
Qed.

Lemma undocumented_options_get_placeholder_witness :
  exists items,
    ConfigINIParser._new__docitems example_hash ["[s]"; "a = 1"; "b: 2"] = Return items /\
    forall item, item ∈ items ->
      di_desc item = Some ConfigINIParser.undoc_option_doc.
Proof.
  apply (undocumented_options_get_placeholder example_hash).
  intros line Hin.
  repeat (apply elem_of_cons in Hin as [->|Hin]; [reflexivity|]). inversion Hin.
Defined.



(** X7.  A header line never raises: whatever the state, it leaves a fresh
    incomplete state for the section named between its brackets, and emits
    the pending item exactly when the state was complete. *)
Theorem header_line_opens_section (name : string) (st : state) :
  let line := "[" +:+ name +:+ "]" in
  is_header line = true /\
  exists result,
    ConfigINIParser.parse_line line st
    = Return (result, State (Some name) None ConfigINIParser.undoc_option_doc None) /\
    (pending st = 0 -> result = None) /\
    (pending st = 1 ->
     exists item, result = Some item /\
       di_subthing item = st_subthing st /\ di_option item = st_option st).
Proof.
  intros line.
  assert (is_header line = true) as Hh.
  { unfold is_header, line, PyStr.endswith_char.
    change ("[" +:+ name +:+ "]") with (String "[" (name +:+ "]")).
    simpl. destruct name as [|c name]; [done|].
    rewrite PyStrFacts.app_cons.
    change (PyStr.last_char (String "[" (String c (name +:+ "]"))))
      with (PyStr.last_char (String c (name +:+ "]"))).
    rewrite <- PyStrFacts.app_cons, StripFacts.last_char_snoc. done. }
  assert (PyStr.slice_1_m1 line = name) as Hname.
  { unfold PyStr.slice_1_m1, line.
    change ("[" +:+ name +:+ "]") with (String "[" (name +:+ "]")).
    simpl. apply StripFacts.removelast_snoc. }
  split; [done|].
  unfold is_header in Hh.
  unfold pending, ConfigINIParser.parse_line. rewrite Hh, Hname.
  destruct st as [[?|] [?|] ? [?|]]; cbn -[PyStr.strip];
    eexists; (split; [done|]); split; try done.
  intros _. eexists. split; [done|]. by rewrite new_subthing, new_option.
Qed.



(** * Further properties of the deduplication *)

Section DedupeFacts.
Context {K : Type} `{EqDecision K} (key : DocItem -> K).

Lemma dict_setitem_fresh (k : K) (v : DocItem) (m : list (K * DocItem)) :
  k ∉ dict_keys m -> dict_setitem k v m = m ++ [(k, v)].
Proof.
  unfold dict_keys. induction m as [|[k0 v0] m IH]; simpl; [done|].
  intros Hk. rewrite decide_False by (intros ->; apply Hk; by left).
  rewrite IH; [done|]. intros Hin. apply Hk. by right.
Qed.

Lemma fold_by_distinct (m : list (K * DocItem)) (ds : list DocItem) :
  NoDup (dict_keys m ++ map key ds) ->
  fold_by key m ds = m ++ map (fun d => (key d, d)) ds.
Proof.
  revert m. induction ds as [|d ds IH]; intros m Hnd; simpl.
  - by rewrite app_nil_r.
  - apply NoDup_app in Hnd as (Hm & Hdisj & Hds).
    apply NoDup_cons in Hds as (Hd & Hds).
    rewrite dict_setitem_fresh by (intros Hin; apply (Hdisj _ Hin); by left).
    rewrite IH.
    + by rewrite <- (assoc_L (++)).
    + unfold dict_keys. rewrite map_app. simpl. rewrite <- (assoc_L (++)). simpl.
      apply NoDup_app. split_and!; [done| |by constructor].
      intros k Hin. apply Hdisj. done.
Qed.

Lemma fold_by_values_distinct (ds : list DocItem) :
  NoDup (map key ds) -> dict_values (fold_by key [] ds) = ds.
Proof.
  intros Hnd. rewrite fold_by_distinct by done. simpl.
  unfold dict_values. rewrite map_map. simpl. apply map_id.
Qed.

Lemma NoDup_map_eq (l : list DocItem) (a b : DocItem) :
  NoDup (map key l) -> a ∈ l -> b ∈ l -> key a = key b -> a = b.
Proof.
  induction l as [|x l IH]; simpl; intros Hnd Ha Hb Hk; [inversion Ha|].
  apply NoDup_cons in Hnd as (Hx & Hnd).
  apply elem_of_cons in Ha as [->|Ha]; apply elem_of_cons in Hb as [->|Hb]; try done.
  - exfalso. apply Hx. rewrite Hk. apply list_elem_of_fmap. by exists b.
  - exfalso. apply Hx. rewrite <- Hk. apply list_elem_of_fmap. by exists a.
  - by apply IH.
Qed.
End DedupeFacts.

Lemma dedupe_as_fold_by (hash : list (option string) -> Z) (ds : list DocItem) :
  ConfigINIParser._dedupe hash ds
  = dict_values (fold_by (DocItemM.__hash__ hash) [] ds).
Proof. apply dedupe_unfold. Qed.

(** X9.  Whatever the hash, the tuple that [_dedupe] returns holds no two
    items with the same hash, hence no two different items for the same pair
    of subthing and option; its hashes are those of the input in the order
    of their first occurrence; every item of it comes from the input, where
    no later item has its hash or its pair. *)
Theorem dedupe_never_keeps_two_for_a_pair (hash : list (option string) -> Z)
    (docitems : list DocItem) :
  let result := ConfigINIParser._dedupe hash docitems in
  NoDup (map (DocItemM.__hash__ hash) result) /\
  map (DocItemM.__hash__ hash) result
    = first_seen (map (DocItemM.__hash__ hash) docitems) /\
  (forall a b, a ∈ result -> b ∈ result -> pair_key a = pair_key b -> a = b) /\
  (forall item, item ∈ result ->
     exists before after,
       docitems = before ++ item :: after /\
       Forall (fun later => DocItemM.__hash__ hash later <> DocItemM.__hash__ hash item /\
                            pair_key later <> pair_key item) after).
Proof.
  intros result. unfold result. rewrite dedupe_as_fold_by.
  assert (map (DocItemM.__hash__ hash)
              (dict_values (fold_by (DocItemM.__hash__ hash) [] docitems))
          = first_seen (map (DocItemM.__hash__ hash) docitems)) as Hkeys
    by apply fold_by_values_keys.
  assert (NoDup (map (DocItemM.__hash__ hash)
                     (dict_values (fold_by (DocItemM.__hash__ hash) [] docitems))))
    as Hnd by (rewrite Hkeys; apply NoDup_first_seen).
  split_and!; [done..| |].
  - intros a b Ha Hb Hab.
    apply (NoDup_map_eq (DocItemM.__hash__ hash) _ a b Hnd Ha Hb).
    unfold DocItemM.__hash__. unfold pair_key in Hab. by injection Hab as -> ->.
  - intros item Hin.
    apply fold_by_values_last in Hin as (before & after & -> & Hafter).
    exists before, after. split; [done|].
    eapply Forall_impl; [exact Hafter|]. simpl. intros later Hne. split; [done|].
    intros Hpair. apply Hne. unfold DocItemM.__hash__.
    unfold pair_key in Hpair. by injection Hpair as -> ->.
Qed.

(** X10.  [_dedupe] is idempotent, and it returns a list whose hashes are
    all different as it is. *)
Theorem dedupe_idempotent (hash : list (option string) -> Z) (docitems : list DocItem) :
  ConfigINIParser._dedupe hash (ConfigINIParser._dedupe hash docitems)
    = ConfigINIParser._dedupe hash docitems /\
  (NoDup (map (DocItemM.__hash__ hash) docitems) ->
   ConfigINIParser._dedupe hash docitems = docitems).
Proof.
  assert (forall ds, NoDup (map (DocItemM.__hash__ hash) ds) ->
                     ConfigINIParser._dedupe hash ds = ds) as Hfix.
  { intros ds Hnd. rewrite dedupe_as_fold_by. by apply fold_by_values_distinct. }
  split; [|apply Hfix].
  apply Hfix. rewrite dedupe_as_fold_by, fold_by_values_keys. apply NoDup_first_seen.
Qed.

Lemma dedupe_idempotent_witness :
  ConfigINIParser._dedupe example_hash [scenario_foo; scenario_bar]
  = [scenario_foo; scenario_bar].
Proof.
  apply (proj2 (dedupe_idempotent example_hash [scenario_foo; scenario_bar])).
  vm_compute. repeat constructor; set_solver.
Defined.

(** * The option pattern and the description format *)

Module SpanFacts.
Import PyStr PyStrFacts.

Lemma span_spec p s a b :
  span p s = (a, b) ->
  s = a +:+ b /\ all p a = true /\ (forall c r, b = String c r -> p c = false).
Proof.
  revert a b. induction s as [|c s IH]; intros a b; simpl.
  - intros [= <- <-]. done.
  - destruct (p c) eqn:Hc.
    + destruct (span p s) as [a' b'] eqn:Hs. intros [= <- <-].
      destruct (IH _ _ eq_refl) as (-> & Ha & Hb).
      split; [done|]. simpl. by rewrite Hc, Ha.
    + intros [= <- <-]. split; [done|]. split; [done|]. by intros ? ? [= <- <-].
Qed.

Lemma span_app p a b :
  all p a = true -> (forall c r, b = String c r -> p c = false) ->
  span p (a +:+ b) = (a, b).
Proof.
  intros Ha Hb. induction a as [|c a IH].
  - rewrite app_empty_l. destruct b as [|c r]; [done|]. simpl.
    by rewrite (Hb c r eq_refl).
  - rewrite app_cons. simpl in *. apply andb_true_iff in Ha as [-> Ha].
    by rewrite (IH Ha).
Qed.
End SpanFacts.

(** X11.  The groups of the option pattern, on lines of printable ASCII
    characters and tabs.  When such a line matches, the
    option is a non-empty run of word characters at the start of the line,
    followed by optional whitespace, one [=] or [:] and optional whitespace;
    the value is what follows up to a line feed, and never starts with
    whitespace.  Conversely every line built in this way matches and gives
    back its option and its value. *)
Theorem option_pattern_groups (line o v : string) :
  (plain_ascii line = true ->
   ConfigINIParser.cfgoptval_regex_match line = Some (o, v) ->
   o <> EmptyString /\ PyStr.all PyStr.isword o = true /\
   (forall c r, v = String c r -> PyStr.isspace c = false) /\
   PyStr.any (fun c => bool_decide (c = PyStr.nl)) v = false /\
   exists ws1 sep ws2 rest,
     line = o +:+ ws1 +:+ String sep (ws2 +:+ v +:+ rest) /\
     PyStr.all PyStr.isspace ws1 = true /\ (sep = "="%char \/ sep = ":"%char) /\
     PyStr.all PyStr.isspace ws2 = true /\
     (forall c r, rest = String c r -> c = PyStr.nl)) /\
  (forall ws1 sep ws2,
     plain_ascii (o +:+ ws1 +:+ String sep (ws2 +:+ v)) = true ->
     o <> EmptyString -> PyStr.all PyStr.isword o = true ->
     PyStr.all PyStr.isspace ws1 = true -> (sep = "="%char \/ sep = ":"%char) ->
     PyStr.all PyStr.isspace ws2 = true ->
     (forall c r, v = String c r -> PyStr.isspace c = false) ->
     PyStr.any (fun c => bool_decide (c = PyStr.nl)) v = false ->
     ConfigINIParser.cfgoptval_regex_match (o +:+ ws1 +:+ String sep (ws2 +:+ v))
     = Some (o, v)).
Proof.
  split.
  - intros _. unfold ConfigINIParser.cfgoptval_regex_match.
    destruct (PyStr.span PyStr.isword line) as [word r1] eqn:H1.
    destruct word as [|w word]; [discriminate|]. simpl PyStr.is_empty. cbv iota.
    destruct (PyStr.span PyStr.isspace r1) as [ws1 r2] eqn:H2.
    destruct r2 as [|sep r3]; [discriminate|].
    destruct (bool_decide (sep = "="%char) || bool_decide (sep = ":"%char)) eqn:Hsep;
      [|discriminate].
    destruct (PyStr.span PyStr.isspace r3) as [ws2 r4] eqn:H3.
    destruct (PyStr.span (fun c => negb (bool_decide (c = PyStr.nl))) r4)
      as [val rest] eqn:H4.
    intros [= <- <-].
    apply SpanFacts.span_spec in H1 as (-> & Hw & _).
    apply SpanFacts.span_spec in H2 as (-> & Hws1 & _).
    apply SpanFacts.span_spec in H3 as (-> & Hws2 & Hv).
    apply SpanFacts.span_spec in H4 as (-> & Hval & Hrest).
    split; [done|]. split; [done|]. split_and!.
    + intros c r ->. apply (Hv c (r +:+ rest)). by rewrite PyStrFacts.app_cons.
    + clear -Hval. induction val as [|c val IH]; simpl in *; [done|].
      apply andb_true_iff in Hval as [Hc Hval]. apply negb_true_iff in Hc.
      by rewrite Hc, IH.
    + exists ws1, sep, ws2, rest. split_and!; try done.
      * apply orb_true_iff in Hsep as [Hs|Hs]; apply bool_decide_eq_true in Hs; eauto.
      * intros c r ->. specialize (Hrest c r eq_refl).
        apply negb_false_iff, bool_decide_eq_true in Hrest. done.
  - intros ws1 sep ws2 _ Ho Hw Hws1 Hsep Hws2 Hv Hnl.
    unfold ConfigINIParser.cfgoptval_regex_match.
    assert (PyStr.isword sep = false /\ PyStr.isspace sep = false) as [Hsw Hss]
      by (destruct Hsep as [-> | ->]; done).
    rewrite (SpanFacts.span_app PyStr.isword o); [|done|].
    2: { destruct ws1 as [|c ws1]; rewrite ?PyStrFacts.app_empty_l, ?PyStrFacts.app_cons;
           intros ? ? [= <- <-]; [done|].
         simpl in Hws1. apply andb_true_iff in Hws1 as [Hc _].
         by apply PyStrFacts.isspace_not_word. }
    destruct o as [|w o]; [done|]. simpl PyStr.is_empty. cbv iota.
    rewrite (SpanFacts.span_app PyStr.isspace ws1); [|done|by intros ? ? [= <- <-]].
    assert (bool_decide (sep = "="%char) || bool_decide (sep = ":"%char) = true) as ->
      by (destruct Hsep as [-> | ->]; done).
    rewrite (SpanFacts.span_app PyStr.isspace ws2 v Hws2 Hv).
    rewrite <- (PyStrFacts.app_empty_r v) at 1.
    rewrite (SpanFacts.span_app _ v EmptyString); [done| |done].
    clear -Hnl. induction v as [|c v IH]; simpl in *; [done|].
    apply orb_false_iff in Hnl as [Hc Hnl]. by rewrite Hc, IH.
Qed.

Lemma option_pattern_groups_witness :
  ConfigINIParser.cfgoptval_regex_match ("max_size" +:+ "  " +:+ String ":" (" " +:+ "10 MB"))
  = Some ("max_size", "10 MB").
Proof.
  apply (proj2 (option_pattern_groups "" "max_size" "10 MB") "  " ":"%char " ");
    try done.
  - by right.
  - by intros c r [= <- <-].
Defined.

Module FormatFacts.
Import PyStr PyStrFacts PyFormat.

(** Literal text is copied. *)
Lemma format_literal kwargs lit s :
  brace_free lit = true ->
  format_from kwargs Lit (lit +:+ s)
  = r ← format_from kwargs Lit s; Return (lit +:+ r).
Proof.
  rewrite brace_free_spec. induction lit as [|c lit IH]; simpl.
  - intros _. rewrite app_empty_l. by destruct (format_from kwargs Lit s).
  - intros [[Ho Hc]%orb_false_iff Hlit]%orb_false_iff.
    rewrite ?app_cons. simpl. rewrite Ho, Hc, (IH Hlit).
    by destruct (format_from kwargs Lit s).
Qed.

(** A field name is read up to its closing brace. *)
Lemma format_field kwargs acc name s :
  brace_free name = true ->
  format_from kwargs (Field acc) (name +:+ "}" +:+ s)
  = v ← render_field kwargs (acc +:+ name);
    r ← format_from kwargs Lit s; Return (v +:+ r).
Proof.
  rewrite brace_free_spec. revert acc. induction name as [|c name IH]; intros acc; simpl.
  - intros _. rewrite app_empty_l, app_empty_r. reflexivity.
  - intros [[Ho Hc]%orb_false_iff Hname]%orb_false_iff.
    rewrite ?app_cons. simpl. rewrite Ho, Hc, (IH _ Hname). by rewrite app_assoc.
Qed.

Lemma format_named_field kwargs name s :
  brace_free name = true -> name <> EmptyString ->
  format_from kwargs Lit ("{" +:+ name +:+ "}" +:+ s)
  = v ← render_field kwargs name;
    r ← format_from kwargs Lit s; Return (v +:+ r).
Proof.
  intros Hname Hne. destruct name as [|c name]; [done|].
  pose proof Hname as Hname'. rewrite brace_free_spec in Hname'. simpl in Hname'.
  apply orb_false_iff in Hname' as [[Ho Hc]%orb_false_iff Hrest].
  change ("{" +:+ String c name +:+ "}" +:+ s)
    with (String "{" (String c (name +:+ "}" +:+ s))).
  simpl. rewrite Ho, Hc.
  apply (format_field kwargs (String c EmptyString) name s).
  by apply brace_free_spec.
Qed.
End FormatFacts.

(** X12.  The description format.  After literal text without braces, the
    token [{n}] becomes a line feed and [{t}] four spaces, doubled braces
    become single ones, and a field with any other plain name raises
    [KeyError] with that name. *)
Theorem description_tokens (lit rest : string) :
  brace_free lit = true ->
  PyFormat.format (lit +:+ "{n}" +:+ rest) ConfigINIParser.desc_fmt_map
    = (r ← PyFormat.format rest ConfigINIParser.desc_fmt_map;
       Return (lit +:+ LF +:+ r)) /\
  PyFormat.format (lit +:+ "{t}" +:+ rest) ConfigINIParser.desc_fmt_map
    = (r ← PyFormat.format rest ConfigINIParser.desc_fmt_map;
       Return (lit +:+ "    " +:+ r)) /\
  PyFormat.format (lit +:+ "{{" +:+ rest) ConfigINIParser.desc_fmt_map
    = (r ← PyFormat.format rest ConfigINIParser.desc_fmt_map;
       Return (lit +:+ "{" +:+ r)) /\
  PyFormat.format (lit +:+ "}}" +:+ rest) ConfigINIParser.desc_fmt_map
    = (r ← PyFormat.format rest ConfigINIParser.desc_fmt_map;
       Return (lit +:+ "}" +:+ r)) /\
  (forall name,
     brace_free name = true -> name <> EmptyString ->
     PyStr.any PyFormat.is_special name = false ->
     PyStr.all PyStr.isdigit name = false ->
     name <> "n" -> name <> "t" ->
     PyFormat.format (lit +:+ "{" +:+ name +:+ "}" +:+ rest) ConfigINIParser.desc_fmt_map
     = Raise (Exn KeyError name)).
Proof.
  intros Hlit. unfold PyFormat.format.
  split_and!;
    try (rewrite FormatFacts.format_literal by done;
         rewrite !PyStrFacts.app_cons, ?PyStrFacts.app_empty_l; simpl;
         destruct (PyFormat.format_from _ PyFormat.Lit rest); simpl; try done;
         unfold LF; by rewrite ?PyStrFacts.app_cons, ?PyStrFacts.app_empty_l).
  intros name Hname Hne Hspecial Hdigit Hn Ht.
  rewrite FormatFacts.format_literal by done.
  rewrite FormatFacts.format_named_field by done.
  unfold PyFormat.render_field. rewrite Hspecial, Hdigit.
  destruct name as [|c name]; [done|]. simpl PyStr.is_empty. cbv iota.
  unfold ConfigINIParser.desc_fmt_map. simpl.
  rewrite decide_False by done. rewrite decide_False by done. done.
Qed.

Lemma description_tokens_witness :
  PyFormat.format "a{n}b" ConfigINIParser.desc_fmt_map = Return ("a" +:+ LF +:+ "b") /\
  PyFormat.format "see {url}" ConfigINIParser.desc_fmt_map = Raise (Exn KeyError "url").
Proof.
  split.
  - exact (proj1 (description_tokens "a" "b" eq_refl)).
  - refine (proj2 (proj2 (proj2 (proj2 (description_tokens "see " "" eq_refl))))
              "url" eq_refl _ eq_refl eq_refl _ _); discriminate.
Defined.

(** * Further properties of the composer *)

Module ComposerFacts.
Import PyStr PyStrFacts PyPercent.


(** A key that is not among the pairs is not changed by them. *)
Lemma dict_get_fold_other {A : Type} (f : A -> string) (g : A -> string)
    (l : list A) (acc : list (string * string)) (k : string) :
  k ∉ map f l ->
  dict_get k (foldl (fun subs x => dict_setitem (f x) (g x) subs) acc l)
  = dict_get k acc.
Proof.
  revert acc. induction l as [|x l IH]; intros acc Hk; simpl; [done|].
  rewrite IH by (intros Hin; apply Hk; by right).
  rewrite dict_get_setitem, decide_False; [done|].
  intros ->. apply Hk. by left.
Qed.

Lemma dict_get_fold_member {A : Type} (f : A -> string) (g : A -> string)
    (l : list A) (acc : list (string * string)) (x : A) :
  NoDup (map f l) -> x ∈ l ->
  dict_get (f x) (foldl (fun subs y => dict_setitem (f y) (g y) subs) acc l)
  = Some (g x).
Proof.
  revert acc. induction l as [|y l IH]; intros acc Hnd Hx; simpl; [inversion Hx|].
  apply NoDup_cons in Hnd as (Hy & Hnd).
  apply elem_of_cons in Hx as [->|Hx].
  - rewrite dict_get_fold_other by done. rewrite dict_get_setitem. by rewrite decide_True.
  - by apply IH.
Qed.
End ComposerFacts.





(** X17.  With a dictionary that is not empty, the exception of a
    substitution never leaves [do_sub_str] as it is: the handler raises
    [AttributeError], whose message names the class of the exception.  So a
    template that breaks off in a conversion, after a lone percent sign,
    inside a key, or after a key that the dictionary holds, raises the
    [AttributeError] for a [ValueError]. *)
Theorem broken_template_raises (dict_str : list (string * string) -> string)
    (self : DocBase) (before : string) :
  DocBaseM.merged_dct self <> [] ->
  percent_free before = true ->
  (forall xcept,
     PyPercent.percent (fmt self) (DocBaseM.merged_dct self) = Raise xcept ->
     DocBaseM.__str__ dict_str self
     = Raise (Exn AttributeError
                ("'" +:+ class_name (exn_cls xcept)
                   +:+ "' object has no attribute 'message'"))) /\
  (fmt self = before +:+ "%" ->
   DocBaseM.__str__ dict_str self
   = Raise (Exn AttributeError "'ValueError' object has no attribute 'message'")) /\
  (forall key, paren_free key = true ->
     fmt self = before +:+ "%(" +:+ key ->
     DocBaseM.__str__ dict_str self
     = Raise (Exn AttributeError "'ValueError' object has no attribute 'message'")) /\
  (forall key v, paren_free key = true ->
     dict_get key (DocBaseM.merged_dct self) = Some v ->
     fmt self = before +:+ "%(" +:+ key +:+ ")" ->
     DocBaseM.__str__ dict_str self
     = Raise (Exn AttributeError "'ValueError' object has no attribute 'message'")).
Proof.
  intros Hdct Hb.
  unfold DocBaseM.__str__, DocBaseM.do_sub_str.
  destruct (DocBaseM.merged_dct self) as [|kv dct] eqn:Hm; [done|].
  split_and!.
  - intros xcept ->. reflexivity.
  - intros Hfmt. rewrite Hfmt at 1. unfold PyPercent.percent.
    by rewrite PercentFacts.percent_literal.
  - intros key Hkey Hfmt. rewrite Hfmt at 1. unfold PyPercent.percent.
    rewrite PercentFacts.percent_literal by done.
    change ("%(" +:+ key) with (String "%" (String "(" key)). simpl.
    assert (forall acc, PyPercent.percent_from (kv :: dct) (PyPercent.Key 0 acc) key
                        = Raise (Exn ValueError "incomplete format key")) as ->; [|done].
    apply PercentFacts.paren_free_spec in Hkey. clear -Hkey.
    induction key as [|c key IH]; intros acc; [done|].
    simpl in Hkey. apply orb_false_iff in Hkey as [[Ho Hc]%orb_false_iff Hkey].
    simpl. rewrite Ho, Hc. by apply IH.
  - intros key v Hkey Hget Hfmt. rewrite Hfmt at 1. unfold PyPercent.percent.
    rewrite PercentFacts.percent_literal by done.
    change ("%(" +:+ key +:+ ")") with (String "%" (String "(" (key +:+ ")" +:+ EmptyString))).
    simpl. rewrite PercentFacts.percent_key by done.
    rewrite PyStrFacts.app_empty_l, Hget. done.
Qed.

Lemma broken_template_raises_witness :
  DocBaseM.__str__ example_dict_str
    (Build_DocBase "50%" (Some [("a", "x")]) None None DocBaseM.conv_default)
  = Raise (Exn AttributeError "'ValueError' object has no attribute 'message'").
Proof.
  refine (proj1 (proj2 (broken_template_raises example_dict_str
            (Build_DocBase "50%" (Some [("a", "x")]) None None DocBaseM.conv_default)
            "50" _ eq_refl)) eq_refl).
  discriminate.
Defined.

(** X18.  The dictionary of [get_sub_method_dct] maps every key of
    [sub_method] to the result of calling its method with that key, and
    holds no other key. *)
Theorem sub_method_values (self : DocBase)
    (methods : list (string * (string -> string))) :
  sub_method self = Some methods ->
  NoDup (map fst methods) ->
  (forall key method, (key, method) ∈ methods ->
     dict_get key (DocBaseM.get_sub_method_dct self) = Some (method key)) /\
  (forall key, key ∉ map fst methods ->
     dict_get key (DocBaseM.get_sub_method_dct self) = None).
Proof.
  intros Hm Hnd. unfold DocBaseM.get_sub_method_dct. rewrite Hm. split.
  - intros key method Hin.
    exact (ComposerFacts.dict_get_fold_member fst (fun km => km.2 km.1)
             methods [] (key, method) Hnd Hin).
  - intros key Hkey.
    exact (ComposerFacts.dict_get_fold_other fst (fun km => km.2 km.1)
             methods [] key Hkey).
Qed.

Lemma sub_method_values_witness :
  dict_get "b" (DocBaseM.get_sub_method_dct
                  (Build_DocBase "" None (Some [("a", exclaim); ("b", exclaim)]) None
                     DocBaseM.conv_default))
  = Some "b!".
Proof.
  refine (proj1 (sub_method_values
                   (Build_DocBase "" None (Some [("a", exclaim); ("b", exclaim)]) None
                      DocBaseM.conv_default)
                   [("a", exclaim); ("b", exclaim)] eq_refl _) "b" exclaim _).
  - simpl. repeat constructor; set_solver.
  - right. left.
Defined.

(** * Further properties of the items *)

(** X19.  [DocItem.__new__] changes nothing but an empty value: the item
    keeps the three other fields, its value is the sentinel exactly when the
    given value was the empty string, it is never the empty string, and
    making an item again from the fields of an item gives the same item. *)
Theorem new_replaces_only_empty_value (subthing option_ desc value : option string) :
  let item := DocItemM.new subthing option_ desc value in
  di_subthing item = subthing /\ di_option item = option_ /\ di_desc item = desc /\
  di_value item
    = (if decide (value = Some EmptyString) then Some DocItemM.empty_value else value) /\
  di_value item <> Some EmptyString /\
  DocItemM.new (di_subthing item) (di_option item) (di_desc item) (di_value item) = item.
Proof.
  unfold DocItemM.new. simpl.
  destruct (decide (value = Some EmptyString)) as [->|Hne]; simpl.
  - split_and!; try done.
  - rewrite decide_False by done. split_and!; try done.
Qed.

(** * [log_versions._rpmq] *)

Lemma contains_empty sub s : sub <> EmptyString -> s = EmptyString -> contains sub s = false.
Proof. intros Hsub ->. by destruct sub. Qed.

(** X21.  [_rpmq] never reports a package that is not installed: its
    result is the output of the query, or the empty string exactly when that
    output holds the words "is not installed"; so the result never holds
    them. *)
Theorem rpmq_drops_missing_packages (run_stdout : string -> string)
    (package_name : string) :
  let nvr := run_stdout ("rpm -q " +:+ package_name) in
  let result := LogVersions._rpmq run_stdout package_name in
  contains "is not installed" result = false /\
  (contains "is not installed" nvr = true -> result = EmptyString) /\
  (contains "is not installed" nvr = false -> result = nvr).
Proof.
  intros nvr result. unfold result, LogVersions._rpmq. fold nvr.
  destruct (contains "is not installed" nvr) eqn:Hc; split_and!; try done.
Qed.

Lemma rpmq_drops_missing_packages_witness :
  LogVersions._rpmq (fun _ => "package docker-latest is not installed") "docker-latest"
  = EmptyString.
Proof.
  exact (proj1 (proj2 (rpmq_drops_missing_packages
                         (fun _ => "package docker-latest is not installed")
                         "docker-latest")) eq_refl).
Defined.

(** * Descriptions over several doc lines *)

Module RedescribeFacts.
Import PyStr PyStrFacts StripFacts PyFormat ConfigINIParser.







End RedescribeFacts.



(** * The results of [sub_method_args] *)

Module ArgsFacts.

Lemma args_fold_as_results calls acc :
  foldl (fun subs ma =>
           let args := default [] (snd ma) in
           let '(key, value) := fst ma args in
           dict_setitem key value subs) acc calls
  = foldl (fun subs ma => dict_setitem (call_result ma).1 (call_result ma).2 subs)
      acc calls.
Proof.
  revert acc. induction calls as [|ma calls IH]; intros acc; simpl; [done|].
  rewrite <- IH. unfold call_result. by destruct (ma.1 (default [] ma.2)).
Qed.

Lemma args_dct_as_results self calls :
  sub_method_args self = Some calls ->
  DocBaseM.get_sub_method_args_dct self
  = foldl (fun subs ma => dict_setitem (call_result ma).1 (call_result ma).2 subs)
      [] calls.
Proof.
  intros Hc. unfold DocBaseM.get_sub_method_args_dct. rewrite Hc.
  apply args_fold_as_results.
Qed.
End ArgsFacts.

(** X23.  [get_sub_method_args_dct] calls every method with its arguments
    and stores the returned value under the returned key: when several
    calls return one key the last of them wins, a key that no call returns
    is absent, and arguments given as [None] are the same as no
    arguments. *)
Theorem sub_method_args_last_call_wins (self : DocBase)
    (calls : list ((list string -> string * string) * option (list string))) :
  sub_method_args self = Some calls ->
  (forall before call after,
     calls = before ++ call :: after ->
     (forall later, later ∈ after -> (call_result later).1 <> (call_result call).1) ->
     dict_get (call_result call).1 (DocBaseM.get_sub_method_args_dct self)
     = Some (call_result call).2) /\
  (forall key,
     (forall call, call ∈ calls -> (call_result call).1 <> key) ->
     dict_get key (DocBaseM.get_sub_method_args_dct self) = None) /\
  (forall self',
     sub_method_args self'
     = Some (map (fun ma => (ma.1, Some (default [] ma.2))) calls) ->
     DocBaseM.get_sub_method_args_dct self'
     = DocBaseM.get_sub_method_args_dct self).
Proof.
  intros Hc. rewrite (ArgsFacts.args_dct_as_results self calls Hc). split_and!.
  - intros before call after -> Hlater. rewrite foldl_app. simpl.
    rewrite ComposerFacts.dict_get_fold_other.
    + rewrite dict_get_setitem. by rewrite decide_True.
    + intros (later & Heq & Hin)%list_elem_of_fmap. by apply (Hlater later).
  - intros key Hkey.
    rewrite ComposerFacts.dict_get_fold_other; [done|].
    intros (call & Heq & Hin)%list_elem_of_fmap. by apply (Hkey call).
  - intros self' Hc'. rewrite (ArgsFacts.args_dct_as_results self' _ Hc').
    generalize (@nil (string * string)). clear.
    induction calls as [|ma calls IH]; intros acc; simpl; [done|].
    rewrite IH. reflexivity.
Qed.

Lemma sub_method_args_last_call_wins_witness :
  dict_get "k" (DocBaseM.get_sub_method_args_dct
                  (Build_DocBase "" None None
                     (Some [(pair_of_args, Some ["k"; "old"]);
                            (pair_of_args, None);
                            (pair_of_args, Some ["k"; "new"])])
                     DocBaseM.conv_default))
  = Some "new".
Proof.
  refine (proj1 (sub_method_args_last_call_wins
                   (Build_DocBase "" None None
                      (Some [(pair_of_args, Some ["k"; "old"]);
                             (pair_of_args, None);
                             (pair_of_args, Some ["k"; "new"])])
                      DocBaseM.conv_default) _ eq_refl)
            [(pair_of_args, Some ["k"; "old"]); (pair_of_args, None)]
            (pair_of_args, Some ["k"; "new"]) [] eq_refl _).
  intros later Hin. inversion Hin.
Defined.

(** * Line terminators *)

Module SplitFacts.
Import PyStr PyStrFacts.

Lemma linebreak_free_cons c s :
  linebreak_free (String c s) = true ->
  is_linebreak c = false /\ c <> "010"%char /\ c <> "013"%char /\
  linebreak_free s = true.
Proof.
  unfold linebreak_free. simpl. rewrite !negb_true_iff.
  intros [Hc ->]%orb_false_iff. split_and!; try done; by intros ->.
Qed.

(** A line without a line break is read up to its terminator. *)
Lemma splitlines_aux_line cur line rest :
  linebreak_free line = true ->
  splitlines_aux cur (line +:+ rest) = splitlines_aux (cur +:+ line) rest.
Proof.
  revert cur. induction line as [|c line IH]; intros cur Hline.
  - by rewrite app_empty_l, app_empty_r.
  - apply linebreak_free_cons in Hline as (Hbreak & Hlf & Hcr & Hline).
    rewrite app_cons. simpl.
    rewrite bool_decide_eq_false_2, Hbreak by done.
    rewrite IH by done. f_equal.
    rewrite app_assoc. by rewrite app_cons, app_empty_l.
Qed.

Lemma splitlines_aux_lf cur rest :
  splitlines_aux cur (String "010" rest) = cur :: splitlines_aux EmptyString rest.
Proof. reflexivity. Qed.

Lemma splitlines_aux_crlf cur rest :
  splitlines_aux cur (String "013" (String "010" rest))
  = cur :: splitlines_aux EmptyString rest.
Proof. reflexivity. Qed.

Lemma splitlines_aux_cr cur rest :
  startswith LF rest = false ->
  splitlines_aux cur (String "013" rest) = cur :: splitlines_aux EmptyString rest.
Proof.
  destruct rest as [|c rest]; [done|].
  destruct c as [[] [] [] [] [] [] [] []]; try done.
Qed.

Lemma terminated_cr_start lines :
  Forall (fun line => linebreak_free line = true) lines ->
  startswith LF (terminated CR lines) = false.
Proof.
  destruct 1 as [|line lines Hline _]; [done|]. simpl.
  destruct line as [|c line]; [done|].
  apply linebreak_free_cons in Hline as (_ & Hlf & _).
  rewrite app_cons. unfold LF. simpl.
  rewrite bool_decide_eq_false_2; [done|]. intros Heq. apply Hlf. by rewrite <- Heq.
Qed.

Lemma splitlines_terminated terminator lines :
  Forall (fun line => linebreak_free line = true) lines ->
  terminator = LF \/ terminator = CR \/ terminator = CRLF ->
  splitlines (terminated terminator lines) = lines.
Proof.
  intros Hlines Hterm. unfold splitlines.
  induction Hlines as [|line lines Hline Hlines IH]; [done|]. simpl.
  rewrite splitlines_aux_line, app_empty_l by done.
  destruct Hterm as [->|[->| ->]].
  - change (LF +:+ terminated LF lines) with (String "010" (terminated LF lines)).
    rewrite splitlines_aux_lf, IH; auto.
  - change (CR +:+ terminated CR lines) with (String "013" (terminated CR lines)).
    rewrite splitlines_aux_cr, IH; auto using terminated_cr_start.
  - change (CRLF +:+ terminated CRLF lines)
      with (String "013" (String "010" (terminated CRLF lines))).
    rewrite splitlines_aux_crlf, IH; auto.
Qed.
End SplitFacts.

(** X24.  [from_string] does not depend on the line terminator.  For lines
    without a line boundary, the text in which every line ends in LF, in CR or
    in CR LF splits back into these lines, so [from_string] of the text is
    the parse of the lines; and it is also the parse of the lines with
    their terminators left on (for LF and CR LF, what iterating over the file
    of that text yields). *)
Theorem from_string_of_terminated_lines (hash : list (option string) -> Z)
    (terminator : string) (lines : list string) :
  Forall (fun line => linebreak_free line = true) lines ->
  terminator = LF \/ terminator = CR \/ terminator = CRLF ->
  PyStr.splitlines (terminated terminator lines) = lines /\
  ConfigINIParser.from_string hash (terminated terminator lines)
  = ConfigINIParser._new__docitems hash lines /\
  ConfigINIParser.from_string hash (terminated terminator lines)
  = ConfigINIParser._new__docitems hash (map (fun line => line +:+ terminator) lines).
Proof.
  intros Hlines Hterm.
  pose proof (SplitFacts.splitlines_terminated terminator lines Hlines Hterm) as Hsplit.
  unfold ConfigINIParser.from_string. rewrite Hsplit. split_and!; try done.
  unfold ConfigINIParser._new__docitems, ConfigINIParser.emitted.
  rewrite (LoopInvariants.parse_lines_same_rstrip
             (map (fun line => line +:+ terminator) lines) lines); [done|].
  clear Hsplit Hlines. induction lines as [|line lines IH]; constructor; [|done].
  apply LoopInvariants.rstrip_app_spaces.
  by destruct Hterm as [->|[->| ->]].
Qed.

Lemma from_string_of_terminated_lines_witness :
  ConfigINIParser.from_string example_hash (terminated CRLF ["[s]"; "k = v"])
  = ConfigINIParser._new__docitems example_hash ["[s]"; "k = v"].
Proof.
  refine (proj1 (proj2 (from_string_of_terminated_lines example_hash CRLF
                          ["[s]"; "k = v"] _ _))).
  - repeat constructor.
  - right. by right.
Defined.

(** * Junk lines *)

Module JunkFacts.
Import PyStr PyStrFacts StripFacts ConfigINIParser ParserFacts LineFacts.












End JunkFacts.



(** * The exceptions of a parse *)

Module RaiseFacts.
Import PyStr PyStrFacts ConfigINIParser ParserFacts PyFormat.




End RaiseFacts.


